(** * Remote-control demo: device simulator, token service, record store
      and session relay, embedded from the TypeScript sources.

    - [DeviceSimulator]  : lib/deviceSimulator (the mock device state source)
    - [Auth]             : lib/auth.ts (token issue / verify)
    - [Database]         : lib/database.ts (retention sweep)
    - [Relay]            : app/api/socket/route.ts (socket event handlers)
    - [Login]            : app/api/auth/login/route.ts (the login route)
    - [Dashboard]        : hooks/useSocket.ts (the state of the two hooks)

    Strings are byte strings; [toLowerCase] is the ASCII case map, which is
    what String.prototype.toLowerCase does on the ASCII range (no character
    outside it lower-cases to a letter used by a key of the tables below). *)

From Stdlib Require Import Ascii String ZArith Sorted.
From stdpp Require Import base gmap sets list strings.

Open Scope string_scope.

(** Values that the host supplies and the code only reads: the wall clock in
    its several renderings, the identifier generator, the random draws of
    the mock location, and two library functions on text. One [Env] is the
    reading taken while one handler runs. *)
Record Env := mkEnv {
  nowMs : Z;                        (* Date.now() *)
  nowISO : string;                  (* new Date().toISOString() *)
  nowDate : string;                 (* new Date().toString() *)
  nowLocale : string;               (* new Date().toLocaleTimeString() *)
  uuid : string;                    (* uuidv4() *)
  CURRENT_TIMESTAMP : string;       (* SQLite CURRENT_TIMESTAMP *)
  datetime_now : string -> string;  (* SQLite datetime('now', modifier) *)
  encodeURIComponent : string -> string;
  numberToString : Z -> string;     (* a number inside a template literal *)
  randomLatitude : string;          (* the jittered coordinates, as JSON text *)
  randomLongitude : string;
  randomAccuracy : Z;
  toFixed6 : string -> string       (* Number.prototype.toFixed(6) on that text *)
}.

(** JSON values as far as the payloads need them; [JNumberText] is a number
    that is only known by its rendering. A field whose value is undefined is
    left out of its object, as [JSON.stringify] does. *)
#[warnings="-register-all"]
Inductive Json :=
  | JString (s : string)
  | JNumber (n : Z)
  | JNumberText (text : string)
  | JObject (fields : list (string * Json)).

(* ================================================================== *)
(** ** String helpers *)

Definition lower_ascii (c : ascii) : ascii :=
  let n := N_of_ascii c in
  if ((65 <=? n) && (n <=? 90))%N then ascii_of_N (n + 32) else c.

Fixpoint toLowerCase (s : string) : string :=
  match s with
  | EmptyString => EmptyString
  | String c r => String (lower_ascii c) (toLowerCase r)
  end.

(** Property read [obj[key]] on an object literal used as a table: own
    properties first. *)
Fixpoint own_property {V : Type} (tbl : list (string * V)) (key : string) : option V :=
  match tbl with
  | [] => None
  | (k, v) :: rest => if String.eqb k key then Some v else own_property rest key
  end.

(** Names every object literal inherits from Object.prototype; a read of one
    of them yields a function (or, for __proto__, the prototype object), never
    undefined. *)
Definition object_prototype_keys : list string :=
  [ "constructor"; "__proto__"; "hasOwnProperty"; "isPrototypeOf";
    "propertyIsEnumerable"; "toLocaleString"; "toString"; "valueOf";
    "__defineGetter__"; "__defineSetter__"; "__lookupGetter__";
    "__lookupSetter__" ].

Definition inherited_property (key : string) : bool :=
  existsb (String.eqb key) object_prototype_keys.

(** Result of [tbl[key]]: an own entry, an inherited member of
    Object.prototype, or undefined. *)
Inductive PropertyRead (V : Type) : Type :=
  | OwnValue (v : V)
  | InheritedValue (name : string)
  | Undefined.
Arguments OwnValue {V} v.
Arguments InheritedValue {V} name.
Arguments Undefined {V}.

Definition get_property {V : Type} (tbl : list (string * V)) (key : string) : PropertyRead V :=
  match own_property tbl key with
  | Some v => OwnValue v
  | None => if inherited_property key then InheritedValue key else Undefined
  end.

(* ================================================================== *)
(** ** lib/deviceSimulator *)

Module DeviceSimulator.

Record MockDeviceInfo := mkDevice {
  id : string;
  name : string;
  model : string;
  androidVersion : string;
  apiLevel : Z;
  manufacturer : string;
  brand : string;
  hardware : string;
  ram : string;
  storage : string;
  batteryLevel : Z;
  screenResolution : string;
  networkType : string;
  connected : bool;
  lastSeen : string
}.

Inductive FileType := file | directory.

Record MockFile := mkFile {
  f_name : string;
  f_path : string;
  f_type : FileType;
  f_size : Z;
  f_lastModified : string;
  f_permissions : string
}.

(** [output] and [exitCode] are [None] where the JavaScript object carries
    [undefined] in that field. *)
Record MockCommand := mkCommand {
  c_id : string;
  c_command : string;
  c_output : option string;
  c_exitCode : option Z;
  c_timestamp : string
}.

(** The static [devices] table; [boot] is the time the class was loaded. *)
Definition devices (boot : string) : list MockDeviceInfo :=
  [ mkDevice "device-001" "Samsung Galaxy S23" "SM-S911B" "14.0" 34 "Samsung"
      "samsung" "qcom" "8GB" "256GB" 85 "1080x2340" "WiFi" false boot;
    mkDevice "device-002" "Google Pixel 8 Pro" "Pixel 8 Pro" "14.0" 34 "Google"
      "google" "tensor" "12GB" "512GB" 72 "1344x2992" "5G" false boot;
    mkDevice "device-003" "OnePlus 11" "CPH2447" "13.0" 33 "OnePlus"
      "oneplus" "qcom" "16GB" "1TB" 94 "1440x3216" "5G" false boot ].

(** [this.devices.find(device => device.id === deviceId) || null] *)
Definition getDeviceById (devs : list MockDeviceInfo) (deviceId : string)
  : option MockDeviceInfo :=
  find (fun device => String.eqb (id device) deviceId) devs.

Definition set_connection (d : MockDeviceInfo) (c : bool) (seen : string) : MockDeviceInfo :=
  mkDevice (id d) (name d) (model d) (androidVersion d) (apiLevel d)
    (manufacturer d) (brand d) (hardware d) (ram d) (storage d)
    (batteryLevel d) (screenResolution d) (networkType d) c seen.

(** Mutates the first device whose id matches, in place; no effect when the
    id is unknown. *)
Fixpoint updateDeviceConnection (env : Env) (devs : list MockDeviceInfo)
    (deviceId : string) (c : bool) : list MockDeviceInfo :=
  match devs with
  | [] => []
  | d :: rest =>
      if String.eqb (id d) deviceId
      then set_connection d c (nowISO env) :: rest
      else d :: updateDeviceConnection env rest deviceId c
  end.

Definition commonFiles : list MockFile :=
  [ mkFile "Android" "/Android" directory 0 "2024-01-15 10:30:00" "drwxr-xr-x";
    mkFile "DCIM" "/DCIM" directory 0 "2024-01-20 14:22:00" "drwxr-xr-x";
    mkFile "Download" "/Download" directory 0 "2024-01-22 09:15:00" "drwxr-xr-x";
    mkFile "Documents" "/Documents" directory 0 "2024-01-18 16:45:00" "drwxr-xr-x";
    mkFile "Pictures" "/Pictures" directory 0 "2024-01-21 11:30:00" "drwxr-xr-x";
    mkFile "Music" "/Music" directory 0 "2024-01-19 13:20:00" "drwxr-xr-x";
    mkFile "Videos" "/Videos" directory 0 "2024-01-20 15:10:00" "drwxr-xr-x" ].

(** [path] is [None] when the caller passes undefined; the default parameter
    value is the root. The device id is not consulted. *)
Definition getFileSystem (deviceId : string) (path : option string) : list MockFile :=
  let path := default "/" path in
  if String.eqb path "/" || String.eqb path "" then commonFiles
  else if String.eqb path "/DCIM" then
    [ mkFile "Camera" "/DCIM/Camera" directory 0 "2024-01-20 14:22:00" "drwxr-xr-x" ]
  else if String.eqb path "/Download" then
    [ mkFile "document.pdf" "/Download/document.pdf" file 2048576
        "2024-01-22 09:15:00" "-rw-r--r--";
      mkFile "image.jpg" "/Download/image.jpg" file 1536000
        "2024-01-21 18:30:00" "-rw-r--r--" ]
  else [].

Record CommandOutput := mkOut { output : string; exitCode : Z }.

Definition LF : string := String (ascii_of_N 10) EmptyString.

Definition commandOutputs (env : Env) : list (string * CommandOutput) :=
  [ ("ls", mkOut ("Android" ++ LF ++ "DCIM" ++ LF ++ "Download" ++ LF ++ "Documents"
                  ++ LF ++ "Pictures" ++ LF ++ "Music" ++ LF ++ "Videos") 0);
    ("pwd", mkOut "/storage/emulated/0" 0);
    ("whoami", mkOut "u0_a123" 0);
    ("date", mkOut (nowDate env) 0);
    ("ps", mkOut ("USER     PID   PPID  VSIZE  RSS     WCHAN    PC        NAME" ++ LF
                  ++ "root      1     0     1896   788   ffffffff 00000000 S /init" ++ LF
                  ++ "system    123   1     2384   1256  ffffffff 00000000 S /system/bin/servicemanager") 0);
    ("df", mkOut ("Filesystem     1K-blocks    Used Available Use% Mounted on" ++ LF
                  ++ "/dev/fuse      249999360 123456789 126542571  50% /storage/emulated") 0);
    ("getprop", mkOut ("[ro.build.version.release]: [14]" ++ LF
                  ++ "[ro.build.version.sdk]: [34]" ++ LF
                  ++ "[ro.product.model]: [SM-S911B]") 0) ].

Definition not_found (command : string) : CommandOutput :=
  mkOut ("Command '" ++ command ++ "' not found or not supported in simulation") 127.

(** [commandOutputs[command.toLowerCase()] || { ..., exitCode: 127 }]: the
    default is taken only when the read is undefined. An inherited member is a
    truthy object with neither an [output] nor an [exitCode] field. *)
Definition executeCommand (env : Env) (deviceId : string) (command : string) : MockCommand :=
  let commandId := uuid env in
  let timestamp := nowISO env in
  match get_property (commandOutputs env) (toLowerCase command) with
  | OwnValue result =>
      mkCommand commandId command (Some (output result)) (Some (exitCode result)) timestamp
  | InheritedValue _ =>
      mkCommand commandId command None None timestamp
  | Undefined =>
      let result := not_found command in
      mkCommand commandId command (Some (output result)) (Some (exitCode result)) timestamp
  end.

Record MockApp := mkApp {
  packageName : string;
  appName : string;
  version : string;
  icon : string;
  size : string;
  category : string;
  system : bool
}.

Record MockLocation := mkLocation {
  latitude : string;
  longitude : string;
  accuracy : Z;
  l_timestamp : string;
  address : string
}.

Record AudioData := mkAudio { audioUrl : string; duration : Z; a_size : Z }.

(** The resolution text is split at the x, each part read as a number and
    printed again; for the digit runs of the table that is the text itself. *)
Definition generateScreenshot (env : Env) (devs : list MockDeviceInfo)
    (deviceId : string) : string :=
  match getDeviceById devs deviceId with
  | None => ""
  | Some device =>
      "https://placehold.co/" ++ screenResolution device ++ "?text="
        ++ encodeURIComponent env (name device ++ " Screenshot - " ++ nowLocale env)
  end.

Definition getInstalledApps (deviceId : string) : list MockApp :=
  [ mkApp "com.android.chrome" "Chrome" "118.0.5993.88"
      "https://placehold.co/64x64?text=Chrome" "145MB" "Web Browser" false;
    mkApp "com.whatsapp" "WhatsApp" "2.23.21.76"
      "https://placehold.co/64x64?text=WA" "89MB" "Communication" false;
    mkApp "com.instagram.android" "Instagram" "302.0.0.23.113"
      "https://placehold.co/64x64?text=IG" "78MB" "Social Media" false;
    mkApp "com.spotify.music" "Spotify" "8.8.62.488"
      "https://placehold.co/64x64?text=Spot" "67MB" "Music" false;
    mkApp "com.android.settings" "Settings" "14.0"
      "https://placehold.co/64x64?text=Set" "12MB" "System" true;
    mkApp "com.google.android.gms" "Google Play Services" "23.42.17"
      "https://placehold.co/64x64?text=GPS" "234MB" "System" true ].

Definition getCurrentLocation (env : Env) (deviceId : string) : MockLocation :=
  mkLocation (randomLatitude env) (randomLongitude env) (randomAccuracy env) (nowISO env)
    ("Jakarta, Indonesia (" ++ toFixed6 env (randomLatitude env) ++ ", "
       ++ toFixed6 env (randomLongitude env) ++ ")").

Definition captureCamera (env : Env) (deviceId : string) (camera : option string) : string :=
  let camera := default "back" camera in
  let cameraText :=
    if String.eqb camera "front" then "Front Camera Selfie" else "Back Camera Photo" in
  "https://placehold.co/1920x1080?text="
    ++ encodeURIComponent env (cameraText ++ " - " ++ nowLocale env).

Definition recordAudio (env : Env) (deviceId : string) (duration : option Z) : AudioData :=
  let duration := default 10%Z duration in
  mkAudio ("https://placehold.co/400x100?text="
             ++ encodeURIComponent env
                  ("Audio Recording - " ++ numberToString env duration ++ "s - "
                     ++ nowLocale env))
          duration (duration * 16000)%Z.

End DeviceSimulator.

(* ================================================================== *)
(** ** lib/auth.ts *)

Module Auth.

Inductive Role := admin | device.

(** [JWTPayload]; the optional fields are [None] when absent. *)
Record JWTPayload := mkPayload {
  userId : string;
  deviceId : option string;
  type : Role;
  iat : option Z;
  exp : option Z
}.

(** [Omit<JWTPayload, 'iat' | 'exp'>], the argument of [generateToken]. *)
Record TokenRequest := mkRequest {
  r_userId : string;
  r_deviceId : option string;
  r_type : Role
}.

(** A compact JWS as the jsonwebtoken library sees it: either text that does
    not parse into header, claims and signature, or the decoded claims with
    the signature that came with them. *)
Inductive Token :=
  | Malformed (raw : string)
  | Jws (claims : JWTPayload) (signature : string).

Inductive JwtError :=
  | JsonWebTokenError (message : string)
  | TokenExpiredError (expiredAt : Z).

Definition DEFAULT_SECRET : string := "remote-control-android-secret-key-2024".

(** ['24h'] in seconds, as jsonwebtoken's timespan computes it. *)
Definition JWT_EXPIRES_IN : Z := 24 * 60 * 60.

Section Jwt.
(** HS256 over the serialised header and claims, keyed by the secret. *)
Variable hs256 : string -> JWTPayload -> string.
(** [process.env.JWT_SECRET] *)
Variable env_JWT_SECRET : option string.

(** [process.env.JWT_SECRET || '...']: unset and empty both fall through. *)
Definition JWT_SECRET : string :=
  match env_JWT_SECRET with
  | Some s => if String.eqb s "" then DEFAULT_SECRET else s
  | None => DEFAULT_SECRET
  end.

(** Seconds since the epoch, [Math.floor(Date.now() / 1000)]. *)
Definition clockTimestamp (env : Env) : Z := (nowMs env / 1000)%Z.

(** [jwt.sign(payload, secret, { expiresIn })] *)
Definition jwt_sign (env : Env) (payload : TokenRequest) (secret : string)
    (expiresIn : Z) : Token :=
  let timestamp := clockTimestamp env in
  let claims := mkPayload (r_userId payload) (r_deviceId payload) (r_type payload)
                  (Some timestamp) (Some (timestamp + expiresIn)%Z) in
  Jws claims (hs256 secret claims).

(** [jwt.verify(token, secret)]: the signature is checked before the
    claims; a token is expired from the second [exp] on. *)
Definition jwt_verify (env : Env) (token : Token) (secret : string)
    : JwtError + JWTPayload :=
  match token with
  | Malformed _ => inl (JsonWebTokenError "jwt malformed")
  | Jws claims signature =>
      if negb (String.eqb signature (hs256 secret claims))
      then inl (JsonWebTokenError "invalid signature")
      else match exp claims with
           | Some e =>
               if (e <=? clockTimestamp env)%Z
               then inl (TokenExpiredError e)
               else inr claims
           | None => inr claims
           end
  end.

Definition generateToken (env : Env) (payload : TokenRequest) : Token :=
  jwt_sign env payload JWT_SECRET JWT_EXPIRES_IN.

(** try / catch: every exception of [jwt.verify] becomes [null]. *)
Definition verifyToken (env : Env) (token : Token) : option JWTPayload :=
  match jwt_verify env token JWT_SECRET with
  | inr decoded => Some decoded
  | inl _ => None
  end.

Definition generateAdminToken (env : Env) (adminId : string) : Token :=
  generateToken env (mkRequest adminId None admin).

Definition generateDeviceToken (env : Env) (adminId deviceId : string) : Token :=
  generateToken env (mkRequest adminId (Some deviceId) device).
(** [DEFAULT_ADMIN] *)
Definition DEFAULT_ADMIN_username : string := "admin".
Definition DEFAULT_ADMIN_password : string := "admin123".
Definition DEFAULT_ADMIN_id : string := "admin-001".

(** [{ success, adminId?, message? }] *)
Record CredentialCheck := mkCredentialCheck {
  c_success : bool;
  c_adminId : option string;
  c_message : option string
}.

Definition validateAdminCredentials (username password : string) : CredentialCheck :=
  if String.eqb username DEFAULT_ADMIN_username && String.eqb password DEFAULT_ADMIN_password
  then mkCredentialCheck true (Some DEFAULT_ADMIN_id) None
  else mkCredentialCheck false None (Some "Invalid credentials").

(** An optional string that is neither undefined nor empty. *)
Definition present (v : option string) : option string :=
  match v with
  | Some s => if String.eqb s "" then None else Some s
  | None => None
  end.

(** [{ success, adminId?, deviceId?, message? }] *)
Record PairingCheck := mkPairingCheck {
  p_success : bool;
  p_adminId : option string;
  p_deviceId : option string;
  p_message : option string
}.

(** [decoded.type !== 'device' || !decoded.deviceId] refuses. *)
Definition validatePairingToken (env : Env) (token : Token) : PairingCheck :=
  match verifyToken env token with
  | None => mkPairingCheck false None None (Some "Invalid or expired token")
  | Some decoded =>
      match type decoded, present (deviceId decoded) with
      | device, Some dev => mkPairingCheck true (Some (userId decoded)) (Some dev) None
      | _, _ => mkPairingCheck false None None (Some "Invalid device token")
      end
  end.

(** [jwt.decode(token)]: the claims as they stand in the token, with no
    check of signature or dates; null when the text does not parse. *)
Definition jwt_decode (token : Token) : option JWTPayload :=
  match token with
  | Malformed _ => None
  | Jws claims _ => Some claims
  end.

(** [!decoded || !decoded.exp] counts a missing and a zero [exp] as expired;
    otherwise the test is [decoded.exp * 1000 < Date.now()]. *)
Definition isTokenExpired (env : Env) (token : Token) : bool :=
  match jwt_decode token with
  | None => true
  | Some decoded =>
      match exp decoded with
      | None => true
      | Some e => if (e =? 0)%Z then true else (e * 1000 <? nowMs env)%Z
      end
  end.

(** With no [exp] the difference is NaN and the comparison is false, so the
    token is handed back. *)
Definition refreshTokenIfNeeded (env : Env) (token : Token) : option Token :=
  match verifyToken env token with
  | None => None
  | Some decoded =>
      match exp decoded with
      | Some e =>
          let timeUntilExpiry := (e * 1000 - nowMs env)%Z in
          if (timeUntilExpiry <? 2 * 60 * 60 * 1000)%Z
          then Some (generateToken env
                       (mkRequest (userId decoded) (deviceId decoded) (type decoded)))
          else Some token
      | None => Some token
      end
  end.
End Jwt.

End Auth.

(* ================================================================== *)
(** ** lib/database.ts *)

Module Database.

(** SQLite compares the DATETIME columns as text, byte by byte. *)
Definition text_lt (a b : string) : bool :=
  match String.compare a b with Lt => true | _ => false end.

Definition text_le (a b : string) : bool :=
  match String.compare a b with Gt => false | _ => true end.

Record SessionRow := mkSession {
  s_id : string;
  s_device_id : string;
  s_admin_id : string;
  s_token : string;
  s_active : bool;
  s_created_at : string;
  s_expires_at : string
}.

Record ActivityRow := mkActivity {
  a_id : string;
  a_device_id : string;
  a_admin_id : string;
  a_action : string;
  a_details : Json;
  a_timestamp : string
}.

Inductive CommandStatus := pending | success | error | timeout.

Record CommandRow := mkCommandRow {
  k_id : string;
  k_device_id : string;
  k_command : string;
  k_status : CommandStatus;
  k_output : option string;
  k_error : option string;
  k_created_at : string;
  k_executed_at : option string
}.

(** The three tables the relay and the sweep touch, in row order. *)
Record DB := mkDB {
  sessions : list SessionRow;
  activity_logs : list ActivityRow;
  commands : list CommandRow
}.

Definition empty : DB := mkDB [] [] [].

(** [details] is stored as JSON text; it is kept here as the value that is
    serialised. *)
Record Activity := mkEntry {
  deviceId : string;
  adminId : string;
  action : string;
  details : Json
}.

(** INSERT INTO activity_logs; [id] is a fresh uuid and [timestamp] takes the
    column default. *)
Definition logActivity (env : Env) (db : DB) (activityData : Activity) : DB :=
  mkDB (sessions db)
       (activity_logs db ++
          [ mkActivity (uuid env) (deviceId activityData) (adminId activityData)
              (action activityData) (details activityData) (CURRENT_TIMESTAMP env) ])
       (commands db).

(** WHERE expires_at <= CURRENT_TIMESTAMP AND active = TRUE *)
Definition session_stale (env : Env) (s : SessionRow) : bool :=
  text_le (s_expires_at s) (CURRENT_TIMESTAMP env) && s_active s.

Definition deactivate (s : SessionRow) : SessionRow :=
  mkSession (s_id s) (s_device_id s) (s_admin_id s) (s_token s) false
    (s_created_at s) (s_expires_at s).

(** WHERE timestamp < datetime("now", "-30 days") *)
Definition activity_old (env : Env) (a : ActivityRow) : bool :=
  text_lt (a_timestamp a) (datetime_now env "-30 days").

(** WHERE created_at < datetime("now", "-7 days") *)
Definition command_old (env : Env) (c : CommandRow) : bool :=
  text_lt (k_created_at c) (datetime_now env "-7 days").

(** UPDATE sessions SET active = FALSE WHERE ..., on one row. *)
Definition sweep_session (env : Env) (s : SessionRow) : SessionRow :=
  if session_stale env s then deactivate s else s.

(** The three statements of [cleanupExpiredData], in order. *)
Definition cleanupExpiredData (env : Env) (db : DB) : DB :=
  mkDB (map (sweep_session env) (sessions db))
       (List.filter (fun a => negb (activity_old env a)) (activity_logs db))
       (List.filter (fun c => negb (command_old env c)) (commands db)).

(** Rows each statement of a sweep would change ([this.changes]). *)
Definition sessions_changed (env : Env) (db : DB) : nat :=
  length (List.filter (session_stale env) (sessions db)).

Definition activity_deleted (env : Env) (db : DB) : nat :=
  length (List.filter (activity_old env) (activity_logs db)).

Definition commands_deleted (env : Env) (db : DB) : nat :=
  length (List.filter (command_old env) (commands db)).

(** ORDER BY: insertion into an ordered list, taking the rows from the last
    to the first, so that rows with equal keys keep their table order (SQL
    leaves the order of ties open). *)
Fixpoint insert_by {A : Type} (le : A -> A -> bool) (x : A) (l : list A) : list A :=
  match l with
  | [] => [x]
  | y :: rest => if le x y then x :: y :: rest else y :: insert_by le x rest
  end.

Definition order_by {A : Type} (le : A -> A -> bool) (l : list A) : list A :=
  fold_right (insert_by le) [] l.

Definition ascending {A : Type} (key : A -> string) (a b : A) : bool :=
  text_le (key a) (key b).

Definition descending {A : Type} (key : A -> string) (a b : A) : bool :=
  text_le (key b) (key a).

(** LIMIT with a bound parameter: a negative value means no limit. *)
Definition limit_rows {A : Type} (limit : Z) (l : list A) : list A :=
  if (limit <? 0)%Z then l else firstn (Z.to_nat limit) l.

(** *** Sessions *)

Record NewSession := mkNewSession {
  n_deviceId : string;
  n_adminId : string;
  n_token : string;
  n_expiresAt : string        (* expiresAt.toISOString() *)
}.

(** INSERT INTO sessions; the id is the primary key, so a uuid that is
    already there makes the statement fail ([None]). *)
Definition createSession (env : Env) (db : DB) (sessionData : NewSession)
    : option (DB * string) :=
  let sessionId := uuid env in
  if existsb (fun s => String.eqb (s_id s) sessionId) (sessions db) then None
  else Some (mkDB (sessions db ++
                     [ mkSession sessionId (n_deviceId sessionData) (n_adminId sessionData)
                         (n_token sessionData) true (CURRENT_TIMESTAMP env)
                         (n_expiresAt sessionData) ])
                  (activity_logs db) (commands db),
             sessionId).

(** WHERE device_id = ? AND active = TRUE AND expires_at > CURRENT_TIMESTAMP *)
Definition session_live (env : Env) (deviceId : string) (s : SessionRow) : bool :=
  String.eqb (s_device_id s) deviceId && s_active s
  && text_lt (CURRENT_TIMESTAMP env) (s_expires_at s).

(** ... ORDER BY created_at DESC LIMIT 1, read with [get] *)
Definition getActiveSession (env : Env) (db : DB) (deviceId : string) : option SessionRow :=
  head (order_by (descending s_created_at)
          (List.filter (session_live env deviceId) (sessions db))).

(** *** Activity *)

(** WHERE device_id = ? ORDER BY timestamp DESC LIMIT ? *)
Definition getRecentActivity (db : DB) (deviceId : string) (limit : option Z)
    : list ActivityRow :=
  limit_rows (default 50%Z limit)
    (order_by (descending a_timestamp)
       (List.filter (fun a => String.eqb (a_device_id a) deviceId) (activity_logs db))).

(** *** Commands *)

Record NewCommand := mkNewCommand { n_device : string; n_command : string }.

Definition createCommand (env : Env) (db : DB) (commandData : NewCommand)
    : option (DB * string) :=
  let commandId := uuid env in
  if existsb (fun c => String.eqb (k_id c) commandId) (commands db) then None
  else Some (mkDB (sessions db) (activity_logs db)
               (commands db ++
                  [ mkCommandRow commandId (n_device commandData) (n_command commandData)
                      pending None None (CURRENT_TIMESTAMP env) None ]),
             commandId).

(** The statuses a result can carry: ['success' | 'error' | 'timeout']. *)
Inductive ResultStatus := r_success | r_error | r_timeout.

Definition status_of (r : ResultStatus) : CommandStatus :=
  match r with r_success => success | r_error => error | r_timeout => timeout end.

Record CommandResult := mkResult {
  r_status : ResultStatus;
  r_output : option string;
  r_error_text : option string
}.

(** UPDATE commands SET status, output, error, executed_at WHERE id = ? *)
Definition updateCommandResult (env : Env) (db : DB) (commandId : string)
    (result : CommandResult) : DB :=
  mkDB (sessions db) (activity_logs db)
    (map (fun c =>
            if String.eqb (k_id c) commandId
            then mkCommandRow (k_id c) (k_device_id c) (k_command c)
                   (status_of (r_status result)) (r_output result) (r_error_text result)
                   (k_created_at c) (Some (CURRENT_TIMESTAMP env))
            else c)
         (commands db)).

Definition is_pending (c : CommandRow) : bool :=
  match k_status c with pending => true | _ => false end.

(** WHERE device_id = ? AND status = "pending" ORDER BY created_at ASC *)
Definition getPendingCommands (db : DB) (deviceId : string) : list CommandRow :=
  order_by (ascending k_created_at)
    (List.filter (fun c => String.eqb (k_device_id c) deviceId && is_pending c)
       (commands db)).

(** *** Devices

    The devices table is only touched by the four functions below and is
    kept apart from the three tables above. *)

Record DeviceRow := mkDeviceRow {
  d_id : string;
  d_device_name : string;
  d_device_type : string;
  d_admin_id : string;
  d_connected : bool;
  d_last_seen : string;
  d_created_at : string;
  d_device_info : Json
}.

(** SELECT * FROM devices WHERE admin_id = ? ORDER BY last_seen DESC *)
Definition getConnectedDevices (rows : list DeviceRow) (adminId : string) : list DeviceRow :=
  order_by (descending d_last_seen)
    (List.filter (fun d => String.eqb (d_admin_id d) adminId) rows).

Definition getDeviceById (rows : list DeviceRow) (deviceId : string) : option DeviceRow :=
  find (fun d => String.eqb (d_id d) deviceId) rows.

(** UPDATE devices SET connected = ?, last_seen = CURRENT_TIMESTAMP WHERE id = ? *)
Definition updateDeviceStatus (env : Env) (rows : list DeviceRow) (deviceId : string)
    (connected : bool) : list DeviceRow :=
  map (fun d =>
         if String.eqb (d_id d) deviceId
         then mkDeviceRow (d_id d) (d_device_name d) (d_device_type d) (d_admin_id d)
                connected (CURRENT_TIMESTAMP env) (d_created_at d) (d_device_info d)
         else d)
      rows.

Record NewDevice := mkNewDevice {
  n_id : string;
  n_deviceName : string;
  n_admin : string;
  n_deviceInfo : option Json
}.

(** INSERT INTO devices (plain INSERT: a taken id fails); [device_info] is
    [deviceInfo || {}] and the row starts connected. *)
Definition createDevice (env : Env) (rows : list DeviceRow) (deviceData : NewDevice)
    : option (list DeviceRow) :=
  if existsb (fun d => String.eqb (d_id d) (n_id deviceData)) rows then None
  else Some (rows ++
               [ mkDeviceRow (n_id deviceData) (n_deviceName deviceData) "android"
                   (n_admin deviceData) true (CURRENT_TIMESTAMP env) (CURRENT_TIMESTAMP env)
                   (default (JObject []) (n_deviceInfo deviceData)) ])%list.

End Database.

(* ================================================================== *)
(** ** app/api/socket/route.ts *)

Module Relay.
Import DeviceSimulator.

(** A JavaScript [Map] with string keys: entries in insertion order, [set] on
    a present key replaces its value where it stands. *)
Section JsMap.
Context {V : Type}.

Fixpoint Map_get (m : list (string * V)) (k : string) : option V :=
  match m with
  | [] => None
  | (k', v) :: rest => if String.eqb k' k then Some v else Map_get rest k
  end.

Fixpoint Map_set (m : list (string * V)) (k : string) (v : V) : list (string * V) :=
  match m with
  | [] => [(k, v)]
  | (k', v') :: rest =>
      if String.eqb k' k then (k', v) :: rest else (k', v') :: Map_set rest k v
  end.

Definition Map_delete (m : list (string * V)) (k : string) : list (string * V) :=
  List.filter (fun e => negb (String.eqb (fst e) k)) m.

Definition Map_values (m : list (string * V)) : list V := map snd m.

Definition Map_keys (m : list (string * V)) : list string := map fst m.
End JsMap.

(** [{ ...deviceInfo, socketId, connectedAt }]: the client's descriptor is
    opaque JSON; the two fields written after the spread win over any field
    of the same name inside it. *)
Record DeviceData := mkData {
  deviceInfo : string;
  socketId : string;
  connectedAt : string
}.

(** The module-level tables, together with what the socket server keeps
    (open sockets and room membership) and the two collaborators' state.
    [rooms] holds the members of each room joined through [socket.join]; the
    room the server opens for every socket under the socket's own generated
    id is never addressed by this code and is left out. *)
Record State := mkState {
  sockets : gset string;
  rooms : gmap string (gset string);
  connectedDevices : list (string * DeviceData);
  adminSessions : gmap string string;
  simulator : list MockDeviceInfo;
  database : Database.DB
}.

Inductive ClientEvent :=
  | admin_authenticate (token : Auth.Token)
  | admin_join (adminId : string)
  | device_register (deviceId : string) (deviceInfo : string) (adminId : string)
  | device_screenshot (deviceId : string)
  | device_command (deviceId : string) (command : string) (commandId : option string)
  | device_files (deviceId : string) (path : option string)
  | device_location (deviceId : string)
  | device_camera (deviceId : string) (camera : option string)
  | device_audio (deviceId : string) (duration : option Z)
  | device_apps (deviceId : string)
  | device_notify (deviceId : string) (message : string)
  | disconnect (reason : string).

Inductive ServerEvent :=
  | admin_authenticated (success : bool) (adminId : option string) (error : option string)
  | devices_list (devices : list DeviceData)
  | device_connect (deviceId : string) (deviceInfo : string)
  | device_registered (success : bool) (deviceId : string)
  | screen_update (deviceId : string) (screenshot : string)
  | command_result (deviceId : string) (commandId : string)
      (output : option string) (exitCode : option Z) (timestamp : string)
  | file_list (deviceId : string) (path : option string) (files : list MockFile)
  | location_update (deviceId : string) (location : MockLocation)
  | camera_result (deviceId : string) (camera : option string) (imageUrl : string)
  | audio_result (deviceId : string) (audioData : AudioData)
  | app_list (deviceId : string) (apps : list MockApp)
  | notification_sent (deviceId : string) (message : string) (success : bool)
  | device_disconnect (deviceId : string).

(** [socket.emit] reaches the socket itself; [socket.to(room).emit] reaches
    the members of the room other than the sender. *)
Inductive Target :=
  | to_socket (sid : string)
  | to_room_except (room : string) (sender : string).

Record Emission := emit { target : Target; event : ServerEvent }.

Definition members (rms : gmap string (gset string)) (room : string) : gset string :=
  default ∅ (rms !! room).

Definition recipients (rms : gmap string (gset string)) (t : Target) : gset string :=
  match t with
  | to_socket sid => {[ sid ]}
  | to_room_except room sender => members rms room ∖ {[ sender ]}
  end.

(** Connection [c] receives event [e] from the emissions [out]. *)
Definition delivered (rms : gmap string (gset string)) (out : list Emission)
    (c : string) (e : ServerEvent) : Prop :=
  exists em, In em out /\ event em = e /\ c ∈ recipients rms (target em).

Definition admin_room (adminId : string) : string := "admin:" ++ adminId.

(** [if (adminId)] on the result of [adminSessions.get]: undefined and the
    empty string are both falsy. *)
Definition truthy (v : option string) : option string :=
  match v with
  | Some s => if String.eqb s "" then None else Some s
  | None => None
  end.

Definition set_sockets (st : State) (v : gset string) : State :=
  mkState v (rooms st) (connectedDevices st) (adminSessions st) (simulator st) (database st).
Definition set_rooms (st : State) (v : gmap string (gset string)) : State :=
  mkState (sockets st) v (connectedDevices st) (adminSessions st) (simulator st) (database st).
Definition set_connectedDevices (st : State) (v : list (string * DeviceData)) : State :=
  mkState (sockets st) (rooms st) v (adminSessions st) (simulator st) (database st).
Definition set_adminSessions (st : State) (v : gmap string string) : State :=
  mkState (sockets st) (rooms st) (connectedDevices st) v (simulator st) (database st).
Definition set_simulator (st : State) (v : list MockDeviceInfo) : State :=
  mkState (sockets st) (rooms st) (connectedDevices st) (adminSessions st) v (database st).
Definition set_database (st : State) (v : Database.DB) : State :=
  mkState (sockets st) (rooms st) (connectedDevices st) (adminSessions st) (simulator st) v.

Definition logActivity (env : Env) (st : State) (deviceId adminId action : string)
    (details : Json) : State :=
  set_database st
    (Database.logActivity env (database st)
       (Database.mkEntry deviceId adminId action details)).

(** The tail shared by the request handlers: one activity row, tagged with
    the admin bound to the requesting socket, when there is one. *)
Definition log_request (env : Env) (st : State) (sid deviceId action : string)
    (details : Json) : State :=
  match truthy (adminSessions st !! sid) with
  | Some adminId => logActivity env st deviceId adminId action details
  | None => st
  end.

(** The rooms a connection is a member of. *)
Definition rooms_of (rms : gmap string (gset string)) (c : string) : gset string :=
  dom (filter (fun entry => c ∈ entry.2) rms).

(** The bindings of a connection: the admin id its session names, and the
    device ids whose registration carries its socket id. *)
Definition bound_admin (st : State) (c a : string) : Prop :=
  adminSessions st !! c = Some a.

Definition bound_device (st : State) (c d : string) : Prop :=
  exists data, In (d, data) (connectedDevices st) /\ socketId data = c.

(** The device is in the table with its connected flag off. *)
Definition flag_off (devs : list MockDeviceInfo) (d : string) : Prop :=
  exists dev, getDeviceById devs d = Some dev /\ connected dev = false.

(** The data-model invariant as the specification words it: an open
    connection has at most one admin id, at most one device id, and not both. *)
Definition single_binding (st : State) : Prop :=
  forall c, c ∈ sockets st ->
    (forall a a', bound_admin st c a -> bound_admin st c a' -> a = a')
    /\ (forall d d', bound_device st c d -> bound_device st c d' -> d = d')
    /\ (forall a d, bound_admin st c a -> ~ bound_device st c d).

(** The three tables name open sockets only (an admin session under the
    empty admin id apart, which the disconnect handler does not see). *)
Definition names_open_sockets (st : State) : Prop :=
  (forall d data, In (d, data) (connectedDevices st) -> socketId data ∈ sockets st)
  /\ (forall room c, c ∈ members (rooms st) room -> c ∈ sockets st)
  /\ (forall c a, adminSessions st !! c = Some a -> a <> "" -> c ∈ sockets st).

(** The eight control requests, device:screenshot to device:notify. *)
Definition is_request (ev : ClientEvent) : bool :=
  match ev with
  | device_screenshot _ | device_command _ _ _ | device_files _ _ | device_location _
  | device_camera _ _ | device_audio _ _ | device_apps _ | device_notify _ _ => true
  | admin_authenticate _ | admin_join _ | device_register _ _ _ | disconnect _ => false
  end.

(** The handlers registered on a socket. Each runs to completion on one
    reading of the host values. Payload fields have the types the client
    interface declares; on those the record store and the simulator do not
    throw, so the catch branches are not entered. *)
Section Handlers.
Variable hs256 : string -> Auth.JWTPayload -> string.
Variable env_JWT_SECRET : option string.

Definition verifyToken := Auth.verifyToken hs256 env_JWT_SECRET.

Definition is_admin (r : Auth.Role) : bool :=
  match r with Auth.admin => true | Auth.device => false end.

Definition on_admin_authenticate (env : Env) (st : State) (sid : string)
    (token : Auth.Token) : State * list Emission :=
  let refused :=
    (st, [ emit (to_socket sid)
             (admin_authenticated false None (Some "Invalid token")) ]) in
  match verifyToken env token with
  | Some decoded =>
      if is_admin (Auth.type decoded) then
        let st1 :=
          set_adminSessions st (<[ sid := Auth.userId decoded ]> (adminSessions st)) in
        (logActivity env st1 "system" (Auth.userId decoded) "admin_websocket_connect"
           (JObject [ ("socketId", JString sid); ("timestamp", JString (nowISO env)) ]),
         [ emit (to_socket sid)
             (admin_authenticated true (Some (Auth.userId decoded)) None) ])
      else refused
  | None => refused
  end.

Definition on_admin_join (st : State) (sid adminId : string) : State * list Emission :=
  let room := admin_room adminId in
  (set_rooms st (<[ room := {[ sid ]} ∪ members (rooms st) room ]> (rooms st)),
   [ emit (to_socket sid) (devices_list (Map_values (connectedDevices st))) ]).

Definition on_device_register (env : Env) (st : State) (sid deviceId deviceInfo adminId : string)
    : State * list Emission :=
  let st1 :=
    set_connectedDevices st
      (Map_set (connectedDevices st) deviceId (mkData deviceInfo sid (nowISO env))) in
  let st2 :=
    set_simulator st1 (updateDeviceConnection env (simulator st1) deviceId true) in
  (st2,
   [ emit (to_room_except (admin_room adminId) sid) (device_connect deviceId deviceInfo);
     emit (to_socket sid) (device_registered true deviceId) ]).

Definition on_device_screenshot (env : Env) (st : State) (sid deviceId : string)
    : State * list Emission :=
  let screenshot := generateScreenshot env (simulator st) deviceId in
  (log_request env st sid deviceId "screenshot_request"
     (JObject [ ("timestamp", JString (nowISO env)) ]),
   [ emit (to_socket sid) (screen_update deviceId screenshot) ]).

Definition optional_field {A : Type} (key : string) (f : A -> Json) (v : option A)
    : list (string * Json) :=
  match v with Some a => [ (key, f a) ] | None => [] end.

Definition command_json (result : MockCommand) : Json :=
  JObject ([ ("id", JString (c_id result)); ("command", JString (c_command result)) ]
             ++ optional_field "output" JString (c_output result)
             ++ optional_field "exitCode" JNumber (c_exitCode result)
             ++ [ ("timestamp", JString (c_timestamp result)) ]).

(** [commandId || result.id] *)
Definition on_device_command (env : Env) (st : State) (sid deviceId command : string)
    (commandId : option string) : State * list Emission :=
  let result := executeCommand env deviceId command in
  let replyId := default (c_id result) (truthy commandId) in
  (log_request env st sid deviceId "command_execute"
     (JObject [ ("command", JString command); ("result", command_json result);
                ("timestamp", JString (nowISO env)) ]),
   [ emit (to_socket sid)
       (command_result deviceId replyId (c_output result) (c_exitCode result)
          (c_timestamp result)) ]).

Definition on_device_files (env : Env) (st : State) (sid deviceId : string)
    (path : option string) : State * list Emission :=
  let files := getFileSystem deviceId path in
  (log_request env st sid deviceId "file_browse"
     (JObject (optional_field "path" JString path
                 ++ [ ("fileCount", JNumber (Z.of_nat (length files)));
                      ("timestamp", JString (nowISO env)) ])),
   [ emit (to_socket sid) (file_list deviceId path files) ]).

Definition location_json (l : MockLocation) : Json :=
  JObject [ ("latitude", JNumberText (latitude l)); ("longitude", JNumberText (longitude l));
            ("accuracy", JNumber (accuracy l)); ("timestamp", JString (l_timestamp l));
            ("address", JString (address l)) ].

Definition on_device_location (env : Env) (st : State) (sid deviceId : string)
    : State * list Emission :=
  let location := getCurrentLocation env deviceId in
  (log_request env st sid deviceId "location_request"
     (JObject [ ("location", location_json location);
                ("timestamp", JString (nowISO env)) ]),
   [ emit (to_socket sid) (location_update deviceId location) ]).

Definition on_device_camera (env : Env) (st : State) (sid deviceId : string)
    (camera : option string) : State * list Emission :=
  let imageUrl := captureCamera env deviceId camera in
  (log_request env st sid deviceId "camera_capture"
     (JObject (optional_field "camera" JString camera
                 ++ [ ("imageUrl", JString imageUrl);
                      ("timestamp", JString (nowISO env)) ])),
   [ emit (to_socket sid) (camera_result deviceId camera imageUrl) ]).

Definition audio_json (a : AudioData) : Json :=
  JObject [ ("audioUrl", JString (audioUrl a)); ("duration", JNumber (duration a));
            ("size", JNumber (a_size a)) ].

Definition on_device_audio (env : Env) (st : State) (sid deviceId : string)
    (duration : option Z) : State * list Emission :=
  let audioData := recordAudio env deviceId duration in
  (log_request env st sid deviceId "audio_record"
     (JObject (optional_field "duration" JNumber duration
                 ++ [ ("audioData", audio_json audioData);
                      ("timestamp", JString (nowISO env)) ])),
   [ emit (to_socket sid) (audio_result deviceId audioData) ]).

Definition on_device_apps (env : Env) (st : State) (sid deviceId : string)
    : State * list Emission :=
  let apps := getInstalledApps deviceId in
  (log_request env st sid deviceId "app_list"
     (JObject [ ("appCount", JNumber (Z.of_nat (length apps)));
                ("timestamp", JString (nowISO env)) ]),
   [ emit (to_socket sid) (app_list deviceId apps) ]).

Definition on_device_notify (env : Env) (st : State) (sid deviceId message : string)
    : State * list Emission :=
  (log_request env st sid deviceId "notification_send"
     (JObject [ ("message", JString message); ("timestamp", JString (nowISO env)) ]),
   [ emit (to_socket sid) (notification_sent deviceId message true) ]).

(** One turn of the loop over [connectedDevices.entries()]; [adminId] is
    the admin session the closing socket held, read before the loop. *)
Definition disconnect_entry (env : Env) (sid : string) (adminId : option string)
    (acc : State * list Emission) (entry : string * DeviceData) : State * list Emission :=
  let (st, out) := acc in
  let (deviceId, deviceData) := entry in
  if String.eqb (socketId deviceData) sid then
    let st1 := set_connectedDevices st (Map_delete (connectedDevices st) deviceId) in
    let st2 :=
      set_simulator st1 (updateDeviceConnection env (simulator st1) deviceId false) in
    (st2,
     (out ++ match adminId with
             | Some a =>
                 [ emit (to_room_except (admin_room a) sid) (device_disconnect deviceId) ]
             | None => []
             end)%list)
  else acc.

(** The socket server takes the socket out of its rooms and out of the
    server before the handler runs. *)
Definition close_socket (st : State) (sid : string) : State :=
  set_rooms (set_sockets st (sockets st ∖ {[ sid ]}))
    ((fun s : gset string => s ∖ {[ sid ]}) <$> rooms st).

Definition on_disconnect (env : Env) (st : State) (sid reason : string)
    : State * list Emission :=
  let st0 := close_socket st sid in
  let adminId := truthy (adminSessions st0 !! sid) in
  let st1 :=
    match adminId with
    | Some a =>
        logActivity env (set_adminSessions st0 (delete sid (adminSessions st0)))
          "system" a "admin_websocket_disconnect"
          (JObject [ ("socketId", JString sid); ("reason", JString reason);
                     ("timestamp", JString (nowISO env)) ])
    | None => st0
    end in
  fold_left (disconnect_entry env sid adminId) (connectedDevices st1) (st1, []).

Definition handle (env : Env) (st : State) (sid : string) (ev : ClientEvent)
    : State * list Emission :=
  match ev with
  | admin_authenticate token => on_admin_authenticate env st sid token
  | admin_join adminId => on_admin_join st sid adminId
  | device_register deviceId deviceInfo adminId =>
      on_device_register env st sid deviceId deviceInfo adminId
  | device_screenshot deviceId => on_device_screenshot env st sid deviceId
  | device_command deviceId command commandId =>
      on_device_command env st sid deviceId command commandId
  | device_files deviceId path => on_device_files env st sid deviceId path
  | device_location deviceId => on_device_location env st sid deviceId
  | device_camera deviceId camera => on_device_camera env st sid deviceId camera
  | device_audio deviceId duration => on_device_audio env st sid deviceId duration
  | device_apps deviceId => on_device_apps env st sid deviceId
  | device_notify deviceId message => on_device_notify env st sid deviceId message
  | disconnect reason => on_disconnect env st sid reason
  end.

(** The relay before any client has connected; [boot] is the load time of
    the simulator's table. *)
Definition initial (boot : string) : State :=
  mkState ∅ ∅ [] ∅ (devices boot) Database.empty.

(** [io.on('connection')] *)
Definition connection (st : State) (sid : string) : State :=
  set_sockets st ({[ sid ]} ∪ sockets st).

(** States the relay can be in: sockets connect under fresh ids, and open
    sockets send events. *)
Inductive reachable : State -> Prop :=
  | reach_initial boot : reachable (initial boot)
  | reach_connection st sid :
      reachable st -> sid ∉ sockets st -> reachable (connection st sid)
  | reach_event st env sid ev :
      reachable st -> sid ∈ sockets st -> reachable (fst (handle env st sid ev)).

(** Running a script of connections and events from a state. *)
Inductive Input :=
  | connects (sid : string)
  | sends (env : Env) (sid : string) (ev : ClientEvent).

Definition step (st : State) (i : Input) : State :=
  match i with
  | connects sid => connection st sid
  | sends env sid ev => fst (handle env st sid ev)
  end.

Definition run (st : State) (script : list Input) : State := fold_left step script st.

(** A script the socket server can produce: connections come under ids that
    are not open, events from sockets that are. *)
Fixpoint script_ok (st : State) (script : list Input) : bool :=
  match script with
  | [] => true
  | i :: rest =>
      match i with
      | connects sid => bool_decide (sid ∉ sockets st)
      | sends _ sid _ => bool_decide (sid ∈ sockets st)
      end && script_ok (step st i) rest
  end.
End Handlers.

End Relay.

(* ================================================================== *)
(** ** app/api/auth/login/route.ts *)

Module Login.

Inductive Body :=
  | refused (message : string)
  | granted (token : Auth.Token) (adminId : string) (message : string).

Record Response := mkResponse { status : Z; body : Body }.

Section Route.
Variable hs256 : string -> Auth.JWTPayload -> string.
Variable env_JWT_SECRET : option string.

(** [POST]. The request body is [None] when it is not a JSON object (the
    destructuring throws); a field is [None] when absent. The store is the
    three tables of [Database.DB]; [admin_id] is NOT NULL there, so a result
    without an admin id would fail the insert and end in the catch. *)
Definition POST (env : Env) (db : Database.DB)
    (request : option (option string * option string)) : Database.DB * Response :=
  match request with
  | None => (db, mkResponse 500 (refused "Internal server error"))
  | Some (username, password) =>
      match Auth.present username, Auth.present password with
      | Some username, Some password =>
          let result := Auth.validateAdminCredentials username password in
          if negb (Auth.c_success result) then
            (db, mkResponse 401
                   (refused (default "Invalid credentials"
                               (Auth.present (Auth.c_message result)))))
          else
            match Auth.c_adminId result with
            | Some adminId =>
                let token := Auth.generateAdminToken hs256 env_JWT_SECRET env adminId in
                (Database.logActivity env db
                   (Database.mkEntry "system" adminId "admin_login"
                      (JObject [ ("username", JString username);
                                 ("timestamp", JString (nowISO env)) ])),
                 mkResponse 200 (granted token adminId "Login successful"))
            | None => (db, mkResponse 500 (refused "Internal server error"))
            end
      | _, _ => (db, mkResponse 400 (refused "Username and password are required"))
      end
  end.
End Route.

End Login.

(* ================================================================== *)
(** ** hooks/useSocket.ts: the state the two hooks keep *)

Module Dashboard.
Import Relay.

Record DeviceEvent := mkEvent {
  e_type : string;
  e_deviceId : string;
  e_timestamp : string;
  e_data : ServerEvent
}.

(** [useAdminSocket]: the ids shown as connected and the event feed. *)
Record AdminView := mkAdminView {
  connectedDevices : list string;
  deviceEvents : list DeviceEvent
}.

(** [[{ type, deviceId, timestamp, data }, ...prev.slice(0, 99)]] *)
Definition push_event (env : Env) (type deviceId : string) (data : ServerEvent)
    (prev : list DeviceEvent) : list DeviceEvent :=
  mkEvent type deviceId (nowISO env) data :: firstn 99 prev.

Definition handleDeviceConnect (env : Env) (view : AdminView) (deviceId : string)
    (data : ServerEvent) : AdminView :=
  mkAdminView
    (if existsb (String.eqb deviceId) (connectedDevices view)
     then connectedDevices view
     else connectedDevices view ++ [deviceId])
    (push_event env "connect" deviceId data (deviceEvents view)).

Definition handleDeviceDisconnect (env : Env) (view : AdminView) (deviceId : string)
    (data : ServerEvent) : AdminView :=
  mkAdminView
    (List.filter (fun id => negb (String.eqb id deviceId)) (connectedDevices view))
    (push_event env "disconnect" deviceId data (deviceEvents view)).

Definition handleDeviceEvent (env : Env) (eventType : string) (view : AdminView)
    (deviceId : string) (data : ServerEvent) : AdminView :=
  mkAdminView (connectedDevices view)
    (push_event env eventType deviceId data (deviceEvents view)).

(** The listeners the hook registers, on the events the relay sends. *)
Definition receive (env : Env) (view : AdminView) (ev : ServerEvent) : AdminView :=
  match ev with
  | device_connect deviceId _ => handleDeviceConnect env view deviceId ev
  | device_disconnect deviceId => handleDeviceDisconnect env view deviceId ev
  | command_result deviceId _ _ _ _ => handleDeviceEvent env "command" view deviceId ev
  | screen_update deviceId _ => handleDeviceEvent env "screen" view deviceId ev
  | _ => view
  end.

Definition receive_all (view : AdminView) (feed : list (Env * ServerEvent)) : AdminView :=
  fold_left (fun v item => receive (fst item) v (snd item)) feed view.

(** What the hook sends once connected: [admin:authenticate] with
    [{ adminId }], that is with no token field, and [admin:join]. A missing
    token is refused by [jwt.verify] like any text that does not parse. *)
Definition handshake (adminId : string) : list ClientEvent :=
  [ admin_authenticate (Auth.Malformed ""); admin_join adminId ].

(** [useDeviceSocket]: the last screenshot and the results by command id. *)
Record CommandReply := mkReply {
  reply_output : option string;
  reply_exitCode : option Z;
  reply_timestamp : string
}.

Record DeviceView := mkDeviceView {
  lastScreenshot : option string;
  commandResults : list (string * CommandReply)
}.

(** [`cmd_${Date.now()}`] with the [device:command] event that carries it,
    as sent while the socket is connected (otherwise the hook sends nothing
    and returns null). *)
Definition sendCommand (env : Env) (deviceId command : string) : string * ClientEvent :=
  let commandId := "cmd_" ++ numberToString env (nowMs env) in
  (commandId, device_command deviceId command (Some commandId)).

(** [handleScreenUpdate] and [handleCommandResult]: events of other devices
    are ignored; a result is stored under its command id. *)
Definition receive_device (deviceId : string) (view : DeviceView) (ev : ServerEvent)
    : DeviceView :=
  match ev with
  | screen_update d screenshot =>
      if String.eqb d deviceId then mkDeviceView (Some screenshot) (commandResults view)
      else view
  | command_result d commandId output exitCode timestamp =>
      if String.eqb d deviceId
      then mkDeviceView (lastScreenshot view)
             (Map_set (commandResults view) commandId (mkReply output exitCode timestamp))
      else view
  | _ => view
  end.

End Dashboard.

(* ================================================================== *)
(** ** Worked values used by the instances below *)

Module Sample.

Definition env : Env :=
  mkEnv 1700000000000 "2023-11-14T22:13:20.000Z"
    "Tue Nov 14 2023 22:13:20 GMT+0000 (Coordinated Universal Time)" "10:13:20 PM"
    "3b241101-e2bb-4255-8caf-4136c566a962" "2023-11-14 22:13:20"
    (fun modifier =>
       if String.eqb modifier "-30 days" then "2023-10-15 22:13:20"
       else "2023-11-07 22:13:20")
    (fun text => text) (fun _ => "10") "-6.2041" "106.8412" 12 (fun text => text).

(** The same host one day and one hour later. *)
Definition env_25h : Env :=
  mkEnv (1700000000000 + 25 * 60 * 60 * 1000) "2023-11-15T23:13:20.000Z"
    "Wed Nov 15 2023 23:13:20 GMT+0000 (Coordinated Universal Time)" "11:13:20 PM"
    "9f0c2d4e-52a7-4c0b-8d46-0f6d1f1c7e11" "2023-11-15 23:13:20"
    (datetime_now env) (fun text => text) (fun _ => "10") "-6.2103" "106.8390" 9
    (fun text => text).

(** A keyed tag that stands in for HS256 where a concrete one is needed. *)
Definition hs256 (secret : string) (claims : Auth.JWTPayload) : string :=
  secret ++ "." ++ Auth.userId claims.

Definition boot : string := "2023-11-14T22:00:00.000Z".

Definition admin_token : Auth.Token :=
  Auth.generateAdminToken hs256 None env "admin-001".

Definition device_token : Auth.Token :=
  Auth.generateDeviceToken hs256 None env "admin-001" "device-001".

Definition start : Relay.State := Relay.initial boot.

(** One socket that signs in as admin and then registers two devices. *)
Definition mixed_script : list Relay.Input :=
  [ Relay.connects "s1";
    Relay.sends env "s1" (Relay.admin_authenticate admin_token);
    Relay.sends env "s1" (Relay.device_register "device-001" "{}" "admin-001");
    Relay.sends env "s1" (Relay.device_register "device-002" "{}" "admin-001") ].

Definition mixed_state : Relay.State := Relay.run hs256 None start mixed_script.

(** Two open sockets, the first of which has registered device-001 and holds
    no admin session. *)
Definition device_only_script : list Relay.Input :=
  [ Relay.connects "s1";
    Relay.connects "s2";
    Relay.sends env "s1" (Relay.device_register "device-001" "{}" "admin-001") ].

Definition device_only_state : Relay.State :=
  Relay.run hs256 None start device_only_script.

(** Two dashboards, each in the room of its own admin, and a device socket
    that has registered device-002 for the second admin. *)
Definition two_admins_script : list Relay.Input :=
  [ Relay.connects "a1";
    Relay.connects "b1";
    Relay.connects "d1";
    Relay.connects "d2";
    Relay.sends env "a1" (Relay.admin_join "admin-001");
    Relay.sends env "b1" (Relay.admin_join "admin-002");
    Relay.sends env "d2" (Relay.device_register "device-002" "{}" "admin-002") ].

Definition two_admins_state : Relay.State :=
  Relay.run hs256 None start two_admins_script.

End Sample.

(** Further worked values: the sample host at other clock readings, and
    rows for the record store. *)
Module SampleStore.

(** The sample host with its millisecond clock set to [ms]. *)
Definition at_clock (ms : Z) : Env :=
  mkEnv ms (nowISO Sample.env) (nowDate Sample.env) (nowLocale Sample.env)
    (uuid Sample.env) (CURRENT_TIMESTAMP Sample.env) (datetime_now Sample.env)
    (encodeURIComponent Sample.env) (numberToString Sample.env)
    (randomLatitude Sample.env) (randomLongitude Sample.env) (randomAccuracy Sample.env)
    (toFixed6 Sample.env).

(** One hour, and 23 hours, after the sample reading; and the very
    millisecond in which a token issued on the sample reading expires. *)
Definition env_1h : Env := at_clock (1700000000000 + 1 * 60 * 60 * 1000).
Definition env_23h : Env := at_clock (1700000000000 + 23 * 60 * 60 * 1000).
Definition env_expiry : Env := at_clock ((1700000000 + 24 * 60 * 60) * 1000).

(** A session that expired at nine in the morning of the sample day. *)
Definition morning_session : Database.SessionRow :=
  Database.mkSession "5d0c6a3e-0001" "device-001" "admin-001" "token-text" true
    "2023-11-13 09:00:00" "2023-11-14T09:00:00.000Z".

Definition new_session : Database.NewSession :=
  Database.mkNewSession "device-001" "admin-001" "token-text" "2023-11-15T22:13:20.000Z".

Definition new_command : Database.NewCommand := Database.mkNewCommand "device-001" "ls".

Definition new_device : Database.NewDevice :=
  Database.mkNewDevice "device-004" "Nothing Phone" "admin-001" None.

Definition one_session_store : Database.DB :=
  Database.mkDB [ morning_session ] [] [].

End SampleStore.

(* ================================================================== *)
(** * Properties *)

(** ** Device simulator *)

Section SimulatorFacts.
Import DeviceSimulator.

Lemma lower_ascii_idem c : lower_ascii (lower_ascii c) = lower_ascii c.
Proof.
  destruct c as [[] [] [] [] [] [] [] []]; reflexivity.
Qed.

Lemma toLowerCase_idem s : toLowerCase (toLowerCase s) = toLowerCase s.
Proof.
  induction s as [|c r IH]; simpl; [reflexivity|].
  now rewrite lower_ascii_idem, IH.
Qed.

Lemma own_property_absent {V} (tbl : list (string * V)) key :
  ~ In key (map fst tbl) -> own_property tbl key = None.
Proof.
  induction tbl as [|[k v] rest IH]; simpl; intros Hnot; [reflexivity|].
  destruct (String.eqb_spec k key) as [->|Hne].
  - exfalso. apply Hnot. now left.
  - apply IH. intros Hin. apply Hnot. now right.
Qed.

Lemma own_property_present {V} (tbl : list (string * V)) key v :
  own_property tbl key = Some v -> In key (map fst tbl).
Proof.
  induction tbl as [|[k w] rest IH]; simpl; [discriminate|].
  destruct (String.eqb_spec k key) as [->|Hne]; intros H.
  - now left.
  - right. now apply IH.
Qed.

Lemma inherited_property_absent key :
  ~ In key object_prototype_keys -> inherited_property key = false.
Proof.
  intros Hnot. unfold inherited_property.
  destruct (existsb (String.eqb key) object_prototype_keys) eqn:E; [|reflexivity].
  apply existsb_exists in E as (k & Hin & Heq).
  apply String.eqb_eq in Heq. subst k. contradiction.
Qed.

Lemma getDeviceById_unknown devs d :
  ~ In d (map id devs) -> getDeviceById devs d = None.
Proof.
  induction devs as [|dev rest IH]; simpl; intros Hnot; [reflexivity|].
  destruct (String.eqb_spec (id dev) d) as [Heq|Hne].
  - exfalso. apply Hnot. now left.
  - apply IH. intros Hin. apply Hnot. now right.
Qed.

Lemma getFileSystem_other_path d p :
  p <> "/" -> p <> "" -> p <> "/DCIM" -> p <> "/Download" ->
  getFileSystem d (Some p) = [].
Proof.
  intros H1 H2 H3 H4. unfold getFileSystem. simpl.
  destruct (String.eqb_spec p "/"); [contradiction|].
  destruct (String.eqb_spec p ""); [contradiction|].
  destruct (String.eqb_spec p "/DCIM"); [contradiction|].
  destruct (String.eqb_spec p "/Download"); [contradiction|].
  reflexivity.
Qed.

(** A command that is neither a key of the table nor an inherited member name
    gets the default: exit code 127 and the not-found message. *)
Lemma executeCommand_not_found env d c :
  ~ In (toLowerCase c) (map fst (commandOutputs env)) ->
  ~ In (toLowerCase c) object_prototype_keys ->
  executeCommand env d c =
    mkCommand (uuid env) c
      (Some ("Command '" ++ c ++ "' not found or not supported in simulation"))
      (Some 127%Z) (nowISO env).
Proof.
  intros Htbl Hproto. unfold executeCommand, get_property.
  rewrite (own_property_absent _ _ Htbl), (inherited_property_absent _ Hproto).
  reflexivity.
Qed.

(** A key of the table, in any letter case, gets its entry, whatever the
    device id. *)
Lemma executeCommand_entry env d c entry :
  own_property (commandOutputs env) (toLowerCase c) = Some entry ->
  executeCommand env d c =
    mkCommand (uuid env) c (Some (output entry)) (Some (exitCode entry)) (nowISO env).
Proof.
  intros Hown. unfold executeCommand, get_property. now rewrite Hown.
Qed.

Lemma executeCommand_pwd env d c :
  toLowerCase c = "pwd" ->
  c_output (executeCommand env d c) = Some "/storage/emulated/0"
  /\ c_exitCode (executeCommand env d c) = Some 0%Z.
Proof.
  intros Hc. rewrite (executeCommand_entry env d c (mkOut "/storage/emulated/0" 0)).
  - split; reflexivity.
  - rewrite Hc. reflexivity.
Qed.

Lemma executeCommand_device_independent env d d' c :
  executeCommand env d c = executeCommand env d' c.
Proof. reflexivity. Qed.

Lemma getFileSystem_device_independent d d' p :
  getFileSystem d p = getFileSystem d' p.
Proof. reflexivity. Qed.

(** C1, as stated, fails: the file listing and the command table do not look
    at the device id, so an unknown device still lists the root and still
    runs pwd with exit code 0. *)
Lemma unknown_device_counterexample :
  ~ (forall env devs d p c,
        ~ In d (map id devs) ->
        getDeviceById devs d = None
        /\ getFileSystem d p = []
        /\ c_exitCode (executeCommand env d c) = Some 127%Z).
Proof.
  intros H.
  destruct (H Sample.env (devices "2023-11-14T22:00:00.000Z") "device-999" (Some "/") "pwd")
    as (_ & Hfiles & _).
  - simpl. intros [F|[F|[F|[]]]]; discriminate F.
  - discriminate Hfiles.
Qed.

(** C1 (amended): for a device id that is not in the simulator's table,
    getDeviceById returns null; getFileSystem returns the empty list for every
    path other than the root, the empty path, /DCIM and /Download; and
    executeCommand returns exit code 127 for every command whose lower-cased
    text is neither a key of the command table nor a member name inherited
    from Object.prototype. *)
Theorem unknown_device_results env devs d p c :
  ~ In d (map id devs) ->
  p <> "/" -> p <> "" -> p <> "/DCIM" -> p <> "/Download" ->
  ~ In (toLowerCase c) (map fst (commandOutputs env)) ->
  ~ In (toLowerCase c) object_prototype_keys ->
  getDeviceById devs d = None
  /\ getFileSystem d (Some p) = []
  /\ c_exitCode (executeCommand env d c) = Some 127%Z.
Proof.
  intros Hd P1 P2 P3 P4 Htbl Hproto. repeat split.
  - now apply getDeviceById_unknown.
  - now apply getFileSystem_other_path.
  - now rewrite executeCommand_not_found.
Qed.

Lemma unknown_device_results_witness :
  getDeviceById (devices "2023-11-14T22:00:00.000Z") "device-999" = None
  /\ getFileSystem "device-999" (Some "/sdcard") = []
  /\ c_exitCode (executeCommand Sample.env "device-999" "reboot") = Some 127%Z.
Proof.
  apply (unknown_device_results Sample.env (devices "2023-11-14T22:00:00.000Z")
           "device-999" "/sdcard" "reboot");
    solve [ discriminate | vm_compute; intuition discriminate ].
Defined.

(** C8 (evaluation at the failing input): the command constructor is not in
    the table, yet the read of the table finds the member every object
    inherits, the default is skipped, and the result carries neither an exit
    code nor an output. *)
Theorem executeCommand_inherited_name env d :
  executeCommand env d "constructor"
  = mkCommand (uuid env) "constructor" None None (nowISO env)
  /\ ~ In (toLowerCase "constructor") (map fst (commandOutputs env)).
Proof.
  split; [reflexivity|].
  simpl. intros [F|[F|[F|[F|[F|[F|[F|[]]]]]]]]; discriminate F.
Qed.

End SimulatorFacts.

(** ** Token service *)

Section TokenFacts.
Import Auth.
Variable hs256 : string -> JWTPayload -> string.
Variable env_JWT_SECRET : option string.

Abbreviation generateToken := (Auth.generateToken hs256 env_JWT_SECRET).
Abbreviation verifyToken := (Auth.verifyToken hs256 env_JWT_SECRET).
Abbreviation jwt_verify := (Auth.jwt_verify hs256).
Abbreviation JWT_SECRET := (Auth.JWT_SECRET env_JWT_SECRET).

Lemma jwt_verify_malformed env raw secret :
  jwt_verify env (Malformed raw) secret = inl (JsonWebTokenError "jwt malformed").
Proof. reflexivity. Qed.

Lemma jwt_verify_bad_signature env claims signature secret :
  signature <> hs256 secret claims ->
  jwt_verify env (Jws claims signature) secret = inl (JsonWebTokenError "invalid signature").
Proof.
  intros Hsig. simpl.
  destruct (String.eqb_spec signature (hs256 secret claims)); [contradiction|reflexivity].
Qed.

Lemma jwt_verify_expired env claims e secret :
  exp claims = Some e -> (e <= clockTimestamp env)%Z ->
  jwt_verify env (Jws claims (hs256 secret claims)) secret = inl (TokenExpiredError e).
Proof.
  intros He Hle. simpl. rewrite String.eqb_refl, He. simpl.
  destruct (Z.leb_spec e (clockTimestamp env)); [reflexivity|lia].
Qed.

(** A signed token verifies as long as the clock has not reached its expiry
    second. *)
Lemma verifyToken_fresh env env' payload :
  (clockTimestamp env' < clockTimestamp env + JWT_EXPIRES_IN)%Z ->
  verifyToken env' (generateToken env payload)
  = Some (mkPayload (r_userId payload) (r_deviceId payload) (r_type payload)
            (Some (clockTimestamp env))
            (Some (clockTimestamp env + JWT_EXPIRES_IN)%Z)).
Proof.
  intros Hlt. unfold Auth.verifyToken, Auth.generateToken, jwt_sign. simpl.
  rewrite String.eqb_refl. simpl.
  destruct (Z.leb_spec (clockTimestamp env + JWT_EXPIRES_IN) (clockTimestamp env'));
    [lia|reflexivity].
Qed.

Lemma verifyToken_failure env token e :
  jwt_verify env token JWT_SECRET = inl e -> verifyToken env token = None.
Proof. intros H. unfold Auth.verifyToken. now rewrite H. Qed.

(** C3: a token verified on the clock reading it was issued on yields a
    payload with the subject id and the role it was issued for. *)
Theorem verify_generate_roundtrip env s dev r :
  exists payload,
    verifyToken env (generateToken env (mkRequest s dev r)) = Some payload
    /\ userId payload = s
    /\ type payload = r.
Proof.
  eexists. split.
  - apply verifyToken_fresh. unfold JWT_EXPIRES_IN. lia.
  - split; reflexivity.
Qed.

(** C4: a token issued with the 24 hour expiry is rejected with null once the
    clock stands 25 hours later; and every failure of the verification
    (malformed text, a signature that does not match, an expiry that has
    passed) comes back as null. *)
Theorem verifyToken_null_on_failure env env' payload token :
  nowMs env' = (nowMs env + 25 * 60 * 60 * 1000)%Z ->
  verifyToken env' (generateToken env payload) = None
  /\ (forall e, jwt_verify env token JWT_SECRET = inl e -> verifyToken env token = None)
  /\ (forall raw, verifyToken env (Malformed raw) = None)
  /\ (forall claims signature,
        signature <> hs256 JWT_SECRET claims ->
        verifyToken env (Jws claims signature) = None)
  /\ (forall claims signature e,
        exp claims = Some e -> (e <= clockTimestamp env)%Z ->
        verifyToken env (Jws claims signature) = None).
Proof.
  intros Hclock. split; [|split; [|split; [|split]]].
  - apply verifyToken_failure with (e := TokenExpiredError (clockTimestamp env + JWT_EXPIRES_IN)).
    apply jwt_verify_expired; [reflexivity|].
    unfold clockTimestamp, JWT_EXPIRES_IN. rewrite Hclock.
    replace (nowMs env + 25 * 60 * 60 * 1000)%Z with (nowMs env + 90000 * 1000)%Z by lia.
    rewrite Z.div_add by lia. lia.
  - apply verifyToken_failure.
  - reflexivity.
  - intros claims signature Hsig.
    apply verifyToken_failure with (e := JsonWebTokenError "invalid signature").
    apply jwt_verify_bad_signature; assumption.
  - intros claims signature e He Hle.
    destruct (String.eqb_spec signature (hs256 JWT_SECRET claims)) as [->|Hne].
    + apply verifyToken_failure with (e := TokenExpiredError e).
      apply jwt_verify_expired; assumption.
    + apply verifyToken_failure with (e := JsonWebTokenError "invalid signature").
      apply jwt_verify_bad_signature; assumption.
Qed.

End TokenFacts.

Lemma verifyToken_null_on_failure_witness :
  Auth.verifyToken Sample.hs256 None Sample.env_25h
    (Auth.generateToken Sample.hs256 None Sample.env
       (Auth.mkRequest "admin-001" None Auth.admin)) = None.
Proof.
  apply (verifyToken_null_on_failure Sample.hs256 None Sample.env Sample.env_25h
           (Auth.mkRequest "admin-001" None Auth.admin) (Auth.Malformed "")).
  reflexivity.
Defined.

(** ** Record store *)

Section StoreFacts.
Import Database.

Lemma filter_keep_idem {A} (p : A -> bool) l :
  List.filter p (List.filter p l) = List.filter p l.
Proof.
  induction l as [|x l IH]; simpl; [reflexivity|].
  destruct (p x) eqn:E; simpl; [rewrite E; now f_equal|exact IH].
Qed.

Lemma filter_drop_none {A} (p : A -> bool) l :
  List.filter p (List.filter (fun x => negb (p x)) l) = [].
Proof.
  induction l as [|x l IH]; simpl; [reflexivity|].
  destruct (p x) eqn:E; simpl; [exact IH|now rewrite E].
Qed.

Lemma deactivate_not_stale env s : session_stale env (deactivate s) = false.
Proof. unfold session_stale. simpl. apply andb_false_r. Qed.

Lemma sweep_session_not_stale env s : session_stale env (sweep_session env s) = false.
Proof.
  unfold sweep_session. destruct (session_stale env s) eqn:E;
    [apply deactivate_not_stale|exact E].
Qed.

Lemma sweep_session_idem env s :
  sweep_session env (sweep_session env s) = sweep_session env s.
Proof.
  unfold sweep_session at 1. now rewrite sweep_session_not_stale.
Qed.

Lemma no_stale_after_sweep env l :
  List.filter (session_stale env) (map (sweep_session env) l) = [].
Proof.
  induction l as [|s l IH]; simpl; [reflexivity|].
  now rewrite sweep_session_not_stale.
Qed.

(** C9: a second sweep on the same clock reading changes nothing: the state
    after two runs is the state after one, and the second run finds no
    session to deactivate and no activity or command row to delete. *)
Theorem cleanupExpiredData_idempotent env db :
  cleanupExpiredData env (cleanupExpiredData env db) = cleanupExpiredData env db
  /\ sessions_changed env (cleanupExpiredData env db) = 0
  /\ activity_deleted env (cleanupExpiredData env db) = 0
  /\ commands_deleted env (cleanupExpiredData env db) = 0.
Proof.
  unfold cleanupExpiredData, sessions_changed, activity_deleted, commands_deleted.
  simpl. repeat split.
  - f_equal.
    + rewrite map_map. apply map_ext. intros s. apply sweep_session_idem.
    + apply filter_keep_idem.
    + apply filter_keep_idem.
  - now rewrite no_stale_after_sweep.
  - now rewrite (filter_drop_none (activity_old env)).
  - now rewrite (filter_drop_none (command_old env)).
Qed.

End StoreFacts.

(** ** Session relay *)

Section MapFacts.
Import Relay.
Context {V : Type}.
Implicit Types (m : list (string * V)) (k : string) (v : V).

Lemma Map_get_set_eq m k v : Map_get (Map_set m k v) k = Some v.
Proof.
  induction m as [|[k' v'] rest IH]; simpl.
  - now rewrite String.eqb_refl.
  - destruct (String.eqb_spec k' k) as [->|Hne]; simpl.
    + now rewrite String.eqb_refl.
    + destruct (String.eqb_spec k' k); [contradiction|exact IH].
Qed.

Lemma Map_get_set_ne m k k' v :
  k' <> k -> Map_get (Map_set m k v) k' = Map_get m k'.
Proof.
  intros Hne. induction m as [|[k0 v0] rest IH]; simpl.
  - destruct (String.eqb_spec k k'); [congruence|reflexivity].
  - destruct (String.eqb_spec k0 k) as [->|Hk]; simpl.
    + destruct (String.eqb_spec k k'); [congruence|reflexivity].
    + destruct (String.eqb_spec k0 k'); [reflexivity|exact IH].
Qed.

Lemma Map_keys_set m k v k' :
  In k' (Map_keys (Map_set m k v)) -> k' = k \/ In k' (Map_keys m).
Proof.
  induction m as [|[k0 v0] rest IH]; simpl.
  - intros [<-|[]]. now left.
  - destruct (String.eqb_spec k0 k) as [->|Hk]; simpl.
    + intros [<-|Hin]; [now left|right; now right].
    + intros [<-|Hin]; [right; now left|].
      destruct (IH Hin) as [->|Hin']; [now left|right; now right].
Qed.

Lemma Map_set_NoDup m k v :
  List.NoDup (Map_keys m) -> List.NoDup (Map_keys (Map_set m k v)).
Proof.
  induction m as [|[k0 v0] rest IH]; simpl; intros Hnd.
  - constructor; [intros []|constructor].
  - destruct (String.eqb_spec k0 k) as [->|Hk]; simpl; [exact Hnd|].
    apply List.NoDup_cons_iff in Hnd as [Hnot Hrest].
    apply List.NoDup_cons_iff. split; [|now apply IH].
    intros Hin. destruct (Map_keys_set _ _ _ _ Hin) as [->|Hin']; congruence.
Qed.

Lemma Map_keys_delete m k k' :
  In k' (Map_keys (Map_delete m k)) -> In k' (Map_keys m).
Proof.
  unfold Map_keys, Map_delete. intros Hin.
  apply in_map_iff in Hin as (e & <- & He).
  apply List.filter_In in He as [He _]. now apply in_map.
Qed.

Lemma Map_delete_NoDup m k :
  List.NoDup (Map_keys m) -> List.NoDup (Map_keys (Map_delete m k)).
Proof.
  induction m as [|[k0 v0] rest IH]; simpl; intros Hnd; [constructor|].
  apply List.NoDup_cons_iff in Hnd as [Hnot Hrest].
  destruct (String.eqb k0 k); simpl; [now apply IH|].
  apply List.NoDup_cons_iff. split; [|now apply IH].
  intros Hin. apply Hnot. now apply (Map_keys_delete rest k).
Qed.

Lemma Map_get_delete_eq m k : Map_get (Map_delete m k) k = None.
Proof.
  induction m as [|[k0 v0] rest IH]; simpl; [reflexivity|].
  destruct (String.eqb k0 k) eqn:E; simpl; [exact IH|now rewrite E].
Qed.

Lemma Map_get_delete_absent m k d :
  Map_get m d = None -> Map_get (Map_delete m k) d = None.
Proof.
  induction m as [|[k0 v0] rest IH]; simpl; [reflexivity|].
  destruct (String.eqb k0 d) eqn:Ed; [discriminate|]. intros Hnone.
  destruct (String.eqb k0 k); simpl; [now apply IH|].
  rewrite Ed. now apply IH.
Qed.

Lemma Map_entry_unique m k v v' :
  List.NoDup (Map_keys m) -> In (k, v) m -> In (k, v') m -> v = v'.
Proof.
  induction m as [|[k0 v0] rest IH]; simpl; intros Hnd; [intros []|].
  apply List.NoDup_cons_iff in Hnd as [Hnot Hrest].
  intros [H1|H1] [H2|H2].
  - congruence.
  - exfalso. apply Hnot. injection H1 as -> _.
    change k with (fst (k, v')). now apply in_map.
  - exfalso. apply Hnot. injection H2 as -> _.
    change k with (fst (k, v)). now apply in_map.
  - now apply IH.
Qed.

End MapFacts.

Section RelayFacts.
Import DeviceSimulator Relay.
Variable hs256 : string -> Auth.JWTPayload -> string.
Variable env_JWT_SECRET : option string.

Abbreviation handle := (Relay.handle hs256 env_JWT_SECRET).
Abbreviation reachable := (Relay.reachable hs256 env_JWT_SECRET).
Abbreviation run := (Relay.run hs256 env_JWT_SECRET).
Abbreviation step := (Relay.step hs256 env_JWT_SECRET).
Abbreviation script_ok := (Relay.script_ok hs256 env_JWT_SECRET).

Lemma admin_room_inj a b : admin_room a = admin_room b -> a = b.
Proof. unfold admin_room. cbv [String.append]. congruence. Qed.

Lemma elem_of_rooms_of (rms : gmap string (gset string)) c room :
  room ∈ rooms_of rms c <-> c ∈ members rms room.
Proof.
  unfold rooms_of, members. rewrite elem_of_dom. split.
  - intros [ms Hms]. apply map_lookup_filter_Some in Hms as [Hlook Hin].
    now rewrite Hlook.
  - intros Hin. destruct (rms !! room) as [ms|] eqn:Hlook; simpl in Hin.
    + exists ms. apply map_lookup_filter_Some. now split.
    + set_solver.
Qed.

Lemma reachable_run st script :
  reachable st -> script_ok st script = true -> reachable (run st script).
Proof.
  revert st. induction script as [|i rest IH]; intros st Hst Hok; [exact Hst|].
  simpl in Hok. apply andb_true_iff in Hok as [Hi Hrest].
  apply (IH (step st i)); [|exact Hrest].
  destruct i as [sid|env sid ev]; simpl.
  - apply reach_connection; [exact Hst|]. now apply bool_decide_eq_true in Hi.
  - apply reach_event; [exact Hst|]. now apply bool_decide_eq_true in Hi.
Qed.

(** *** admin:authenticate *)

(** C10: a token that verifies but carries the role device is refused: the
    one reply is admin:authenticated with success false, to the requesting
    socket, and the relay state, the admin sessions in particular, stays as
    it was. *)
Theorem authenticate_refuses_device_token env st sid token payload :
  Auth.verifyToken hs256 env_JWT_SECRET env token = Some payload ->
  Auth.type payload = Auth.device ->
  handle env st sid (admin_authenticate token)
  = (st, [ emit (to_socket sid) (admin_authenticated false None (Some "Invalid token")) ])
  /\ adminSessions (fst (handle env st sid (admin_authenticate token))) = adminSessions st.
Proof.
  intros Hverify Hrole.
  assert (handle env st sid (admin_authenticate token)
          = (st, [ emit (to_socket sid)
                     (admin_authenticated false None (Some "Invalid token")) ])) as Heq.
  { simpl. unfold on_admin_authenticate, verifyToken.
    rewrite Hverify, Hrole. reflexivity. }
  split; [exact Heq|now rewrite Heq].
Qed.

(** *** device:register *)

(** C2: the device:connect broadcast of a registration that names admin A
    reaches only members of A's room, and never a connection whose only room
    is that of another admin B. *)
Theorem device_connect_scoped env st sid d info A B c d' info' :
  A <> B ->
  rooms_of (rooms st) c = {[ admin_room B ]} ->
  let r := handle env st sid (device_register d info A) in
  (forall c', delivered (rooms (fst r)) (snd r) c' (device_connect d' info') ->
              c' ∈ members (rooms st) (admin_room A))
  /\ ~ delivered (rooms (fst r)) (snd r) c (device_connect d' info').
Proof.
  intros Hne Honly r.
  assert (forall c', delivered (rooms (fst r)) (snd r) c' (device_connect d' info') ->
                     c' ∈ members (rooms st) (admin_room A)) as Hscope.
  { intros c' (em & Hin & Hev & Hrcv). simpl in Hin.
    destruct Hin as [<-|[<-|[]]]; simpl in Hev, Hrcv.
    - now apply elem_of_difference in Hrcv as [Hmem _].
    - discriminate Hev. }
  split; [exact Hscope|].
  intros Hdel. apply Hscope in Hdel.
  apply elem_of_rooms_of in Hdel. rewrite Honly in Hdel.
  apply elem_of_singleton in Hdel. now apply admin_room_inj in Hdel.
Qed.

(** C7 (amended): a registration for a device id is accepted whenever it
    arrives, also over an earlier registration whose connection is still
    open: the sender gets device:registered with success true, the entry of
    that device id now names the sender (last writer wins), no socket is
    closed, and the entries of other device ids are as before. *)
Theorem register_last_writer_wins env st sid d info a :
  let r := handle env st sid (device_register d info a) in
  In (emit (to_socket sid) (device_registered true d)) (snd r)
  /\ Map_get (connectedDevices (fst r)) d = Some (mkData info sid (nowISO env))
  /\ sockets (fst r) = sockets st
  /\ (forall d', d' <> d ->
        Map_get (connectedDevices (fst r)) d' = Map_get (connectedDevices st) d').
Proof.
  simpl. split; [right; now left|]. split; [apply Map_get_set_eq|].
  split; [reflexivity|]. intros d' Hne. now apply Map_get_set_ne.
Qed.

(** *** disconnect *)

Lemma getDeviceById_update env devs d' flag d :
  getDeviceById (updateDeviceConnection env devs d' flag) d
  = if String.eqb d' d
    then option_map (fun dev => set_connection dev flag (nowISO env)) (getDeviceById devs d)
    else getDeviceById devs d.
Proof.
  induction devs as [|dev rest IH]; simpl.
  - now destruct (String.eqb d' d).
  - destruct (String.eqb_spec (id dev) d') as [Hd'|Hd']; simpl.
    + destruct (String.eqb_spec (id dev) d) as [Hd|Hd].
      * subst. now rewrite String.eqb_refl.
      * subst. destruct (String.eqb_spec (id dev) d); [contradiction|reflexivity].
    + destruct (String.eqb_spec (id dev) d) as [Hd|Hd].
      * subst. destruct (String.eqb_spec d' (id dev)); [congruence|reflexivity].
      * exact IH.
Qed.

Lemma update_keeps_known env devs d' flag d :
  is_Some (getDeviceById devs d) ->
  is_Some (getDeviceById (updateDeviceConnection env devs d' flag) d).
Proof.
  intros [dev Hdev]. rewrite getDeviceById_update, Hdev.
  destruct (String.eqb d' d); simpl; eauto.
Qed.

Lemma update_sets_flag_off env devs d :
  is_Some (getDeviceById devs d) ->
  flag_off (updateDeviceConnection env devs d false) d.
Proof.
  intros [dev Hdev]. unfold flag_off.
  rewrite getDeviceById_update, Hdev, String.eqb_refl. simpl. eauto.
Qed.

Lemma update_keeps_flag_off env devs d' d :
  flag_off devs d -> flag_off (updateDeviceConnection env devs d' false) d.
Proof.
  intros (dev & Hdev & Hoff). unfold flag_off.
  rewrite getDeviceById_update, Hdev.
  destruct (String.eqb d' d); simpl; eauto.
Qed.

Section Loop.
Variables (env : Env) (sid : string) (adminId : option string).

Abbreviation loop := (fold_left (disconnect_entry env sid adminId)).

Lemma loop_other_fields entries st out :
  sockets (fst (loop entries (st, out))) = sockets st
  /\ rooms (fst (loop entries (st, out))) = rooms st
  /\ adminSessions (fst (loop entries (st, out))) = adminSessions st
  /\ database (fst (loop entries (st, out))) = database st.
Proof.
  revert st out. induction entries as [|[k data] rest IH]; intros st out; simpl; [easy|].
  destruct (String.eqb (socketId data) sid); [|apply IH].
  match goal with |- context [loop rest (?s, ?o)] => destruct (IH s o) as (H1 & H2 & H3 & H4) end.
  now rewrite H1, H2, H3, H4.
Qed.

Lemma loop_keeps_absent entries st out d :
  Map_get (connectedDevices st) d = None ->
  Map_get (connectedDevices (fst (loop entries (st, out)))) d = None.
Proof.
  revert st out. induction entries as [|[k data] rest IH]; intros st out Hnone; simpl;
    [exact Hnone|].
  destruct (String.eqb (socketId data) sid); apply IH; [|exact Hnone].
  simpl. now apply Map_get_delete_absent.
Qed.

Lemma loop_deletes entries st out d data :
  In (d, data) entries -> socketId data = sid ->
  Map_get (connectedDevices (fst (loop entries (st, out)))) d = None.
Proof.
  revert st out. induction entries as [|[k dat] rest IH]; intros st out Hin Hsid; simpl;
    [destruct Hin|].
  destruct Hin as [Heq|Hin].
  - injection Heq as -> ->. rewrite Hsid, String.eqb_refl.
    apply loop_keeps_absent. simpl. apply Map_get_delete_eq.
  - destruct (String.eqb (socketId dat) sid); now apply IH.
Qed.

Lemma loop_keys entries st out k :
  In k (Map_keys (connectedDevices (fst (loop entries (st, out))))) ->
  In k (Map_keys (connectedDevices st)).
Proof.
  revert st out. induction entries as [|[k0 dat] rest IH]; intros st out; simpl;
    [easy|].
  destruct (String.eqb (socketId dat) sid); intros Hin; apply IH in Hin; [|exact Hin].
  simpl in Hin. now apply Map_keys_delete in Hin.
Qed.

Lemma loop_NoDup entries st out :
  List.NoDup (Map_keys (connectedDevices st)) ->
  List.NoDup (Map_keys (connectedDevices (fst (loop entries (st, out))))).
Proof.
  revert st out. induction entries as [|[k0 dat] rest IH]; intros st out Hnd; simpl;
    [exact Hnd|].
  destruct (String.eqb (socketId dat) sid); apply IH; [|exact Hnd].
  simpl. now apply Map_delete_NoDup.
Qed.

Lemma loop_known entries st out d :
  is_Some (getDeviceById (simulator st) d) ->
  is_Some (getDeviceById (simulator (fst (loop entries (st, out)))) d).
Proof.
  revert st out. induction entries as [|[k0 dat] rest IH]; intros st out Hk; simpl;
    [exact Hk|].
  destruct (String.eqb (socketId dat) sid); apply IH; [|exact Hk].
  simpl. now apply update_keeps_known.
Qed.

Lemma loop_keeps_flag_off entries st out d :
  flag_off (simulator st) d ->
  flag_off (simulator (fst (loop entries (st, out)))) d.
Proof.
  revert st out. induction entries as [|[k0 dat] rest IH]; intros st out Hoff; simpl;
    [exact Hoff|].
  destruct (String.eqb (socketId dat) sid); apply IH; [|exact Hoff].
  simpl. now apply update_keeps_flag_off.
Qed.

Lemma loop_sets_flag_off entries st out d data :
  In (d, data) entries -> socketId data = sid ->
  is_Some (getDeviceById (simulator st) d) ->
  flag_off (simulator (fst (loop entries (st, out)))) d.
Proof.
  revert st out. induction entries as [|[k dat] rest IH]; intros st out Hin Hsid Hk; simpl;
    [destruct Hin|].
  destruct Hin as [Heq|Hin].
  - injection Heq as -> ->. rewrite Hsid, String.eqb_refl.
    apply loop_keeps_flag_off. simpl. now apply update_sets_flag_off.
  - destruct (String.eqb (socketId dat) sid); apply IH; try assumption.
    simpl. now apply update_keeps_known.
Qed.

Lemma loop_emissions_grow entries st out em :
  In em out -> In em (snd (loop entries (st, out))).
Proof.
  revert st out. induction entries as [|[k dat] rest IH]; intros st out Hin; simpl;
    [exact Hin|].
  destruct (String.eqb (socketId dat) sid); apply IH; [|exact Hin].
  apply in_or_app. now left.
Qed.

Lemma loop_broadcasts entries st out d data a :
  adminId = Some a -> In (d, data) entries -> socketId data = sid ->
  In (emit (to_room_except (admin_room a) sid) (device_disconnect d))
     (snd (loop entries (st, out))).
Proof.
  intros Ha. revert st out.
  induction entries as [|[k dat] rest IH]; intros st out Hin Hsid; simpl; [destruct Hin|].
  destruct Hin as [Heq|Hin].
  - injection Heq as -> ->. rewrite Hsid, String.eqb_refl.
    apply loop_emissions_grow. apply in_or_app. right. rewrite Ha. now left.
  - destruct (String.eqb (socketId dat) sid); now apply IH.
Qed.

Lemma loop_silent entries st out :
  adminId = None -> snd (loop entries (st, out)) = out.
Proof.
  intros Ha. revert st out.
  induction entries as [|[k dat] rest IH]; intros st out; simpl; [reflexivity|].
  destruct (String.eqb (socketId dat) sid); rewrite IH; [|reflexivity].
  rewrite Ha. apply app_nil_r.
Qed.

End Loop.

Lemma on_disconnect_unfold env st sid reason :
  exists st1,
    connectedDevices st1 = connectedDevices st
    /\ simulator st1 = simulator st
    /\ handle env st sid (disconnect reason)
       = fold_left (disconnect_entry env sid (truthy (adminSessions st !! sid)))
           (connectedDevices st) (st1, []).
Proof.
  simpl. unfold on_disconnect. simpl.
  destruct (truthy (adminSessions st !! sid)) as [a|]; eexists;
    refine (conj _ (conj _ eq_refl)); reflexivity.
Qed.

(** What the disconnect handler does for a connection that owns a
    registration: the registration is removed and the device, when the
    simulator knows it, has its connected flag off; device:disconnect goes to
    the room of the admin whose session the closing connection itself holds,
    and when it holds no admin session nothing is sent. *)
Lemma disconnect_removes_registration env st sid reason d :
  bound_device st sid d ->
  let r := handle env st sid (disconnect reason) in
  Map_get (connectedDevices (fst r)) d = None
  /\ (is_Some (getDeviceById (simulator st) d) -> flag_off (simulator (fst r)) d)
  /\ (forall a, truthy (adminSessions st !! sid) = Some a ->
        In (emit (to_room_except (admin_room a) sid) (device_disconnect d)) (snd r))
  /\ (truthy (adminSessions st !! sid) = None -> snd r = []).
Proof.
  intros (data & Hin & Hsid) r. subst r.
  destruct (on_disconnect_unfold env st sid reason) as (st1 & Hdev & Hsim & ->).
  split; [|split; [|split]].
  - now apply loop_deletes with (data := data).
  - intros Hknown. apply loop_sets_flag_off with (data := data); try assumption.
    now rewrite Hsim.
  - intros a Ha. now apply loop_broadcasts with (data := data).
  - intros Ha. now apply loop_silent.
Qed.

(** *** Bindings in reachable states *)

Lemma handle_keeps_NoDup env st sid ev :
  List.NoDup (Map_keys (connectedDevices st)) ->
  List.NoDup (Map_keys (connectedDevices (fst (handle env st sid ev)))).
Proof.
  intros Hnd. destruct ev; simpl; try exact Hnd.
  - unfold on_admin_authenticate.
    destruct (verifyToken hs256 env_JWT_SECRET env token) as [decoded|]; [|exact Hnd].
    destruct (is_admin (Auth.type decoded)); exact Hnd.
  - now apply Map_set_NoDup.
  - unfold log_request. now destruct (truthy (adminSessions st !! sid)).
  - unfold log_request. now destruct (truthy (adminSessions st !! sid)).
  - unfold log_request. now destruct (truthy (adminSessions st !! sid)).
  - unfold log_request. now destruct (truthy (adminSessions st !! sid)).
  - unfold log_request. now destruct (truthy (adminSessions st !! sid)).
  - unfold log_request. now destruct (truthy (adminSessions st !! sid)).
  - unfold log_request. now destruct (truthy (adminSessions st !! sid)).
  - unfold log_request. now destruct (truthy (adminSessions st !! sid)).
  - destruct (on_disconnect_unfold env st sid reason) as (st1 & Hdev & _ & Heq).
    simpl in Heq. rewrite Heq. apply loop_NoDup. now rewrite Hdev.
Qed.

Lemma reachable_NoDup st :
  reachable st -> List.NoDup (Map_keys (connectedDevices st)).
Proof.
  induction 1 as [boot|st sid _ IH _|st env sid ev _ IH _].
  - constructor.
  - exact IH.
  - now apply handle_keeps_NoDup.
Qed.

(** C6 (amended): in every state the relay can reach, a connection is bound
    to at most one admin id, and a device id is registered to at most one
    connection. *)
Theorem binding_invariant st :
  reachable st ->
  (forall c a a', bound_admin st c a -> bound_admin st c a' -> a = a')
  /\ (forall d c c', bound_device st c d -> bound_device st c' d -> c = c').
Proof.
  intros Hreach. split.
  - unfold bound_admin. intros c a a' Ha Ha'. congruence.
  - intros d c c' (data & Hin & Hc) (data' & Hin' & Hc').
    pose proof (Map_entry_unique _ _ _ _ (reachable_NoDup st Hreach) Hin Hin').
    congruence.
Qed.

End RelayFacts.

(** ** Worked instances on the sample scripts *)

Section Instances.
Import DeviceSimulator Relay.

Lemma mixed_state_reachable : Relay.reachable Sample.hs256 None Sample.mixed_state.
Proof. apply reachable_run; [apply reach_initial|vm_compute; reflexivity]. Qed.

Lemma device_only_state_reachable :
  Relay.reachable Sample.hs256 None Sample.device_only_state.
Proof. apply reachable_run; [apply reach_initial|vm_compute; reflexivity]. Qed.

Lemma two_admins_state_reachable :
  Relay.reachable Sample.hs256 None Sample.two_admins_state.
Proof. apply reachable_run; [apply reach_initial|vm_compute; reflexivity]. Qed.

Lemma authenticate_refuses_device_token_witness :
  Relay.handle Sample.hs256 None Sample.env Sample.start "s1"
    (admin_authenticate Sample.device_token)
  = (Sample.start,
     [ emit (to_socket "s1") (admin_authenticated false None (Some "Invalid token")) ]).
Proof.
  apply (authenticate_refuses_device_token Sample.hs256 None Sample.env Sample.start "s1"
           Sample.device_token
           (Auth.mkPayload "admin-001" (Some "device-001") Auth.device
              (Some 1700000000%Z) (Some 1700086400%Z)));
    reflexivity.
Defined.

Lemma device_connect_scoped_witness :
  "admin-001" <> "admin-002"
  /\ rooms_of (rooms Sample.two_admins_state) "b1" = {[ admin_room "admin-002" ]}
  /\ ~ delivered
         (rooms (fst (Relay.handle Sample.hs256 None Sample.env Sample.two_admins_state
                        "d1" (device_register "device-001" "{}" "admin-001"))))
         (snd (Relay.handle Sample.hs256 None Sample.env Sample.two_admins_state
                 "d1" (device_register "device-001" "{}" "admin-001")))
         "b1" (device_connect "device-001" "{}").
Proof.
  assert ("admin-001" <> "admin-002") as Hne by discriminate.
  assert (rooms_of (rooms Sample.two_admins_state) "b1" = {[ admin_room "admin-002" ]})
    as Honly by (vm_compute; reflexivity).
  split; [exact Hne|]. split; [exact Honly|].
  pose proof (device_connect_scoped Sample.hs256 None Sample.env Sample.two_admins_state
                "d1" "device-001" "{}" "admin-001" "admin-002" "b1" "device-001" "{}"
                Hne Honly) as H.
  cbv zeta in H. destruct H as (_ & Hnot). exact Hnot.
Defined.

(** C5 (evaluation at the failing input): socket s1 has registered
    device-001 for admin-001 and holds no admin session. When it closes, the
    registration is removed and the flag is off, but the list of emissions is
    empty: no device:disconnect goes to any room. *)
Theorem disconnect_without_session_sends_nothing :
  bound_device Sample.device_only_state "s1" "device-001"
  /\ adminSessions Sample.device_only_state !! "s1" = None
  /\ snd (Relay.handle Sample.hs256 None Sample.env_25h Sample.device_only_state "s1"
            (disconnect "transport close")) = []
  /\ Map_get
       (connectedDevices
          (fst (Relay.handle Sample.hs256 None Sample.env_25h Sample.device_only_state
                  "s1" (disconnect "transport close")))) "device-001" = None
  /\ flag_off
       (simulator
          (fst (Relay.handle Sample.hs256 None Sample.env_25h Sample.device_only_state
                  "s1" (disconnect "transport close")))) "device-001".
Proof.
  split; [eexists; split; [left; reflexivity|reflexivity]|].
  split; [vm_compute; reflexivity|].
  split; [vm_compute; reflexivity|].
  split; [vm_compute; reflexivity|].
  eexists. split; vm_compute; reflexivity.
Qed.

(** Hence no statement that promises the broadcast to every closing device
    connection can hold. *)
Lemma disconnect_broadcast_not_always :
  ~ (forall env st sid reason d,
        Relay.reachable Sample.hs256 None st -> sid ∈ sockets st ->
        bound_device st sid d ->
        exists room,
          In (emit (to_room_except room sid) (device_disconnect d))
             (snd (Relay.handle Sample.hs256 None env st sid (disconnect reason)))).
Proof.
  intros H.
  destruct (H Sample.env Sample.device_only_state "s1" "transport close" "device-001")
    as (room & Hin).
  - exact device_only_state_reachable.
  - apply (bool_decide_unpack _). vm_compute. exact I.
  - eexists. split; [left; reflexivity|reflexivity].
  - vm_compute in Hin. exact Hin.
Qed.

Lemma disconnect_removes_registration_instance :
  bound_device Sample.mixed_state "s1" "device-002"
  /\ Map_get
       (connectedDevices
          (fst (Relay.handle Sample.hs256 None Sample.env_25h Sample.mixed_state "s1"
                  (disconnect "transport close")))) "device-002" = None.
Proof.
  assert (bound_device Sample.mixed_state "s1" "device-002") as Hbound.
  { eexists. split; [right; left; reflexivity|reflexivity]. }
  split; [exact Hbound|].
  pose proof (disconnect_removes_registration Sample.hs256 None Sample.env_25h
                Sample.mixed_state "s1" "transport close" "device-002" Hbound) as H.
  cbv zeta in H. destruct H as (Hgone & _). exact Hgone.
Defined.

(** Socket s1 of the mixed script ends up with an admin session and two
    device registrations. *)
Lemma mixed_state_bindings :
  "s1" ∈ sockets Sample.mixed_state
  /\ bound_admin Sample.mixed_state "s1" "admin-001"
  /\ bound_device Sample.mixed_state "s1" "device-001"
  /\ bound_device Sample.mixed_state "s1" "device-002".
Proof.
  split; [apply (bool_decide_unpack _); vm_compute; exact I|].
  split; [unfold bound_admin; vm_compute; reflexivity|].
  split.
  - eexists. split; [left; reflexivity|reflexivity].
  - eexists. split; [right; left; reflexivity|reflexivity].
Qed.

(** C6, as stated, fails: nothing stops one socket from registering two
    devices, nor from doing so next to its admin session. *)
Lemma single_binding_counterexample :
  ~ (forall st, Relay.reachable Sample.hs256 None st -> single_binding st).
Proof.
  intros H.
  destruct mixed_state_bindings as (Hopen & Hadmin & Hd1 & Hd2).
  destruct (H Sample.mixed_state mixed_state_reachable "s1" Hopen) as (_ & Hdev & _).
  discriminate (Hdev "device-001" "device-002" Hd1 Hd2).
Qed.

Lemma binding_invariant_witness :
  Relay.reachable Sample.hs256 None Sample.mixed_state
  /\ ((forall c a a',
         bound_admin Sample.mixed_state c a -> bound_admin Sample.mixed_state c a' -> a = a')
      /\ (forall d c c',
            bound_device Sample.mixed_state c d -> bound_device Sample.mixed_state c' d ->
            c = c')).
Proof.
  split; [exact mixed_state_reachable|].
  exact (binding_invariant Sample.hs256 None Sample.mixed_state mixed_state_reachable).
Defined.

(** C7, as stated, fails: device-001 is registered to the open socket s1, and
    a registration for it from s2 is accepted all the same. *)
Lemma second_registration_counterexample :
  ~ (forall env st sid d data info a,
        Relay.reachable Sample.hs256 None st ->
        Map_get (connectedDevices st) d = Some data ->
        socketId data ∈ sockets st ->
        sid ∈ sockets st -> sid <> socketId data ->
        ~ In (emit (to_socket sid) (device_registered true d))
             (snd (Relay.handle Sample.hs256 None env st sid (device_register d info a)))).
Proof.
  intros H.
  apply (H Sample.env Sample.device_only_state "s2" "device-001"
           (mkData "{}" "s1" (nowISO Sample.env)) "{}" "admin-001").
  - exact device_only_state_reachable.
  - reflexivity.
  - apply (bool_decide_unpack _). vm_compute. exact I.
  - apply (bool_decide_unpack _). vm_compute. exact I.
  - discriminate.
  - right. left. reflexivity.
Qed.

End Instances.

(* ================================================================== *)
(** * Further properties of the code around the claims *)

(** ** Text order of the DATETIME columns *)

Section TextOrder.
Import Database.

Lemma text_compare_refl s : String.compare s s = Eq.
Proof.
  induction s as [|c r IH]; simpl; [reflexivity|].
  unfold Ascii.compare. now rewrite N.compare_refl.
Qed.

Lemma text_le_refl s : text_le s s = true.
Proof. unfold text_le. now rewrite text_compare_refl. Qed.

Lemma text_le_total a b : text_le a b = true \/ text_le b a = true.
Proof.
  unfold text_le. rewrite (String.compare_antisym b a).
  destruct (String.compare a b); simpl; auto.
Qed.

Lemma text_le_trans a b c :
  text_le a b = true -> text_le b c = true -> text_le a c = true.
Proof.
  unfold text_le. revert b c.
  induction a as [|x a IH]; intros [|y b] [|z c]; simpl; try easy.
  unfold Ascii.compare.
  destruct (N.compare_spec (N_of_ascii x) (N_of_ascii y)) as [Hxy|Hxy|Hxy];
    destruct (N.compare_spec (N_of_ascii y) (N_of_ascii z)) as [Hyz|Hyz|Hyz];
    destruct (N.compare_spec (N_of_ascii x) (N_of_ascii z)) as [Hxz|Hxz|Hxz];
    try easy; try lia.
  apply IH.
Qed.

Lemma text_lt_le a b : text_lt a b = true -> text_le a b = true.
Proof. unfold text_lt, text_le. now destruct (String.compare a b). Qed.

Lemma text_lt_not_le a b : text_lt a b = negb (text_le b a).
Proof.
  unfold text_lt, text_le. rewrite (String.compare_antisym a b).
  now destruct (String.compare b a).
Qed.

(** Two texts with a common prefix compare as their remainders do. *)
Lemma text_compare_prefix p a b :
  String.compare (p ++ a) (p ++ b) = String.compare a b.
Proof.
  induction p as [|c p IH]; [reflexivity|].
  change (String.compare (String c (p ++ a)) (String c (p ++ b)) = String.compare a b).
  cbn [String.compare]. unfold Ascii.compare. now rewrite N.compare_refl.
Qed.

End TextOrder.

(** ** ORDER BY *)

Section OrderBy.
Import Database.
Context {A : Type} (le : A -> A -> bool).

Lemma In_insert_by x l y : In y (insert_by le x l) <-> y = x \/ In y l.
Proof.
  induction l as [|z l IH]; simpl; [intuition|].
  destruct (le x z); simpl; [intuition|]. rewrite IH. intuition.
Qed.

Lemma In_order_by l y : In y (order_by le l) <-> In y l.
Proof.
  induction l as [|x l IH]; simpl; [reflexivity|].
  rewrite In_insert_by, IH. intuition.
Qed.

Lemma length_insert_by x l : length (insert_by le x l) = S (length l).
Proof.
  induction l as [|z l IH]; simpl; [reflexivity|].
  destruct (le x z); simpl; [reflexivity|now rewrite IH].
Qed.

Lemma length_order_by l : length (order_by le l) = length l.
Proof.
  induction l as [|x l IH]; simpl; [reflexivity|].
  now rewrite length_insert_by, IH.
Qed.

Hypothesis le_total : forall a b, le a b = true \/ le b a = true.
Hypothesis le_trans : forall a b c, le a b = true -> le b c = true -> le a c = true.

Lemma insert_by_sorted x l :
  StronglySorted (fun a b => le a b = true) l ->
  StronglySorted (fun a b => le a b = true) (insert_by le x l).
Proof.
  induction 1 as [|z l Hs IH Hall]; simpl.
  - constructor; constructor.
  - pose proof (proj1 (List.Forall_forall _ _) Hall) as Hin.
    destruct (le x z) eqn:E.
    + constructor; [now constructor|].
      constructor; [exact E|].
      apply List.Forall_forall. intros y Hy.
      apply le_trans with z; [exact E|]. now apply Hin.
    + constructor; [exact IH|].
      apply List.Forall_forall. intros y Hy.
      apply In_insert_by in Hy as [->|Hy].
      * destruct (le_total x z) as [F|F]; [congruence|exact F].
      * now apply Hin.
Qed.

Lemma order_by_sorted l : StronglySorted (fun a b => le a b = true) (order_by le l).
Proof.
  induction l as [|x l IH]; simpl; [constructor|]. now apply insert_by_sorted.
Qed.

Lemma order_by_head l x :
  head (order_by le l) = Some x ->
  In x l /\ forall y, In y l -> le x y = true.
Proof.
  intros Hhead. pose proof (order_by_sorted l) as Hs.
  destruct (order_by le l) as [|h t] eqn:E; [discriminate|].
  injection Hhead as ->. split.
  - apply (In_order_by l). rewrite E. now left.
  - intros y Hy. apply (In_order_by l) in Hy. rewrite E in Hy.
    destruct Hy as [<-|Hy].
    + destruct (le_total x x); assumption.
    + apply StronglySorted_inv in Hs as [_ Hall].
      rewrite List.Forall_forall in Hall. now apply Hall.
Qed.

Lemma order_by_head_none l : head (order_by le l) = None -> l = [].
Proof.
  intros H. destruct l as [|x l]; [reflexivity|].
  pose proof (length_order_by (x :: l)) as Hlen.
  destruct (order_by le (x :: l)); [discriminate Hlen|discriminate H].
Qed.

End OrderBy.

(** ** Record store: queries and the rest of the writes *)

Section StoreQueries.
Import Database.

Lemma descending_total {A} (key : A -> string) a b :
  descending key a b = true \/ descending key b a = true.
Proof. unfold descending. apply text_le_total. Qed.

Lemma descending_trans {A} (key : A -> string) a b c :
  descending key a b = true -> descending key b c = true -> descending key a c = true.
Proof. unfold descending. intros H1 H2. now apply text_le_trans with (key b). Qed.

Lemma ascending_total {A} (key : A -> string) a b :
  ascending key a b = true \/ ascending key b a = true.
Proof. unfold ascending. apply text_le_total. Qed.

Lemma ascending_trans {A} (key : A -> string) a b c :
  ascending key a b = true -> ascending key b c = true -> ascending key a c = true.
Proof. unfold ascending. intros H1 H2. now apply text_le_trans with (key b). Qed.

Lemma firstn_In {A} n (l : list A) x : In x (firstn n l) -> In x l.
Proof.
  revert l. induction n as [|n IH]; intros [|y l]; simpl; try easy.
  intros [->|Hx]; [now left|right; now apply IH].
Qed.

Lemma firstn_sorted {A} (R : A -> A -> Prop) n l :
  StronglySorted R l -> StronglySorted R (firstn n l).
Proof.
  revert l. induction n as [|n IH]; intros l Hs; simpl; [constructor|].
  destruct l as [|x l]; [constructor|].
  apply StronglySorted_inv in Hs as [Hs Hall]. constructor; [now apply IH|].
  apply List.Forall_forall. intros y Hy.
  rewrite List.Forall_forall in Hall. apply Hall. now apply (firstn_In n).
Qed.

(** X1: the sweep removes exactly the activity and command rows that are
    strictly older than their thresholds, and removes no session: the
    sessions after the sweep differ from those before in the active flag
    only. *)
Theorem cleanupExpiredData_deletes_only_old env db :
  map deactivate (sessions (cleanupExpiredData env db)) = map deactivate (sessions db)
  /\ (forall a, In a (activity_logs (cleanupExpiredData env db))
                <-> In a (activity_logs db) /\ activity_old env a = false)
  /\ (forall c, In c (commands (cleanupExpiredData env db))
                <-> In c (commands db) /\ command_old env c = false).
Proof.
  unfold cleanupExpiredData. simpl. split; [|split].
  - rewrite map_map. apply map_ext. intros s. unfold sweep_session.
    now destruct (session_stale env s).
  - intros a. rewrite List.filter_In, negb_true_iff. reflexivity.
  - intros c. rewrite List.filter_In, negb_true_iff. reflexivity.
Qed.

(** X2: expiry times are stored in ISO form (date, T, time) and compared as
    text with CURRENT_TIMESTAMP (date, space, time). On the calendar day of
    its expiry a session therefore never counts as expired, whatever the two
    times of day are: the sweep leaves it as it is. *)
Theorem session_not_stale_on_expiry_day env s date time now_time :
  s_expires_at s = date ++ "T" ++ time ->
  CURRENT_TIMESTAMP env = date ++ " " ++ now_time ->
  session_stale env s = false /\ sweep_session env s = s.
Proof.
  intros Hexp Hnow.
  assert (session_stale env s = false) as Hstale.
  { unfold session_stale, text_le. rewrite Hexp, Hnow, text_compare_prefix.
    reflexivity. }
  split; [exact Hstale|]. unfold sweep_session. now rewrite Hstale.
Qed.

Lemma getActiveSession_cases env db deviceId :
  match getActiveSession env db deviceId with
  | Some s =>
      In s (sessions db) /\ session_live env deviceId s = true
      /\ forall s', In s' (sessions db) -> session_live env deviceId s' = true ->
                    text_le (s_created_at s') (s_created_at s) = true
  | None => forall s', In s' (sessions db) -> session_live env deviceId s' = false
  end.
Proof.
  unfold getActiveSession.
  destruct (head (order_by (descending s_created_at)
                    (List.filter (session_live env deviceId) (sessions db)))) as [s|] eqn:E.
  - apply order_by_head in E as [Hin Hmax];
      [|apply descending_total|apply descending_trans].
    apply List.filter_In in Hin as [Hin Hlive]. repeat split; try assumption.
    intros s' Hin' Hlive'. apply (Hmax s'). apply List.filter_In. now split.
  - apply order_by_head_none in E. intros s' Hin'.
    destruct (session_live env deviceId s') eqn:Hlive; [|reflexivity].
    assert (In s' (List.filter (session_live env deviceId) (sessions db))) as Hf
      by (apply List.filter_In; now split).
    rewrite E in Hf. destruct Hf.
Qed.

(** X3: what getActiveSession returns: a row of the table for that device
    that is active and not yet expired, with the latest creation time among
    all such rows; and null only when there is no such row. *)
Theorem getActiveSession_newest_live env db deviceId :
  match Database.getActiveSession env db deviceId with
  | Some s =>
      In s (sessions db) /\ session_live env deviceId s = true
      /\ forall s', In s' (sessions db) -> session_live env deviceId s' = true ->
                    text_le (s_created_at s') (s_created_at s) = true
  | None => forall s', In s' (sessions db) -> session_live env deviceId s' = false
  end.
Proof. apply getActiveSession_cases. Qed.

(** X4: a session that was just created is found: after createSession
    succeeds, getActiveSession for its device returns an active session of
    that device for as long as the stored expiry compares greater than
    CURRENT_TIMESTAMP. *)
Theorem createSession_then_active env env' db sessionData db' sessionId :
  createSession env db sessionData = Some (db', sessionId) ->
  text_lt (CURRENT_TIMESTAMP env') (n_expiresAt sessionData) = true ->
  exists s,
    getActiveSession env' db' (n_deviceId sessionData) = Some s
    /\ s_device_id s = n_deviceId sessionData
    /\ s_active s = true
    /\ text_le (CURRENT_TIMESTAMP env) (s_created_at s) = true.
Proof.
  intros Hcreate Hfuture. unfold createSession in Hcreate.
  destruct (existsb _ (sessions db)); [discriminate|].
  injection Hcreate as <- <-.
  set (row := mkSession (uuid env) (n_deviceId sessionData) (n_adminId sessionData)
                (n_token sessionData) true (CURRENT_TIMESTAMP env)
                (n_expiresAt sessionData)).
  set (db' := mkDB (sessions db ++ [row]) (activity_logs db) (commands db)).
  assert (In row (sessions db')) as Hin by (apply in_or_app; right; now left).
  assert (session_live env' (n_deviceId sessionData) row = true) as Hlive.
  { unfold session_live. simpl. now rewrite String.eqb_refl, Hfuture. }
  pose proof (getActiveSession_cases env' db' (n_deviceId sessionData)) as Hspec.
  destruct (getActiveSession env' db' (n_deviceId sessionData)) as [s|].
  - destruct Hspec as (_ & Hs & Hmax). exists s. split; [reflexivity|].
    unfold session_live in Hs.
    apply andb_true_iff in Hs as [Hs _]. apply andb_true_iff in Hs as [Hdev Hact].
    apply String.eqb_eq in Hdev. repeat split; try assumption.
    exact (Hmax row Hin Hlive).
  - rewrite (Hspec row Hin) in Hlive. discriminate.
Qed.

Lemma getPendingCommands_In db deviceId c :
  In c (getPendingCommands db deviceId)
  <-> In c (commands db) /\ k_device_id c = deviceId /\ k_status c = pending.
Proof.
  unfold getPendingCommands.
  rewrite In_order_by, List.filter_In, andb_true_iff, String.eqb_eq.
  unfold is_pending. destruct (k_status c); intuition discriminate.
Qed.

(** X5: getPendingCommands returns exactly the pending commands of the
    device, oldest creation time first. *)
Theorem getPendingCommands_pending_oldest_first db deviceId :
  (forall c, In c (getPendingCommands db deviceId)
             <-> In c (commands db) /\ k_device_id c = deviceId /\ k_status c = pending)
  /\ StronglySorted (fun a b => text_le (k_created_at a) (k_created_at b) = true)
       (getPendingCommands db deviceId).
Proof.
  split; [intros c; apply getPendingCommands_In|].
  unfold getPendingCommands.
  - apply (order_by_sorted (ascending k_created_at));
      [apply ascending_total|apply ascending_trans].
Qed.

(** X6: the life of a command: once createCommand succeeds the command is
    among the pending commands of its device, and after updateCommandResult
    for its id no pending command of any device carries that id. *)
Theorem command_pending_until_result env db commandData db' commandId :
  createCommand env db commandData = Some (db', commandId) ->
  (exists c, In c (getPendingCommands db' (n_device commandData))
             /\ k_id c = commandId /\ k_command c = n_command commandData)
  /\ (forall env' result deviceId c,
        In c (getPendingCommands (updateCommandResult env' db' commandId result) deviceId) ->
        k_id c <> commandId).
Proof.
  intros Hcreate. unfold createCommand in Hcreate.
  destruct (existsb _ (commands db)); [discriminate|].
  injection Hcreate as <- <-. split.
  - exists (mkCommandRow (uuid env) (n_device commandData) (n_command commandData)
              pending None None (CURRENT_TIMESTAMP env) None).
    split; [|split; reflexivity].
    apply getPendingCommands_In. simpl.
    split; [apply in_or_app; right; now left|split; reflexivity].
  - intros env' result deviceId c Hin Hid.
    apply getPendingCommands_In in Hin as (Hin & _ & Hpending).
    unfold updateCommandResult in Hin. cbn [commands] in Hin.
    apply in_map_iff in Hin as (c0 & Hc & _).
    destruct (String.eqb_spec (k_id c0) (uuid env)) as [Heq|Hne].
    + subst c. simpl in Hpending. now destruct (r_status result).
    + subst c. contradiction.
Qed.

(** X7: getRecentActivity returns rows of the table for that device only,
    latest timestamp first, and never more than the limit (50 when the
    caller gives none) as long as the limit is not negative. *)
Theorem getRecentActivity_bounded_latest_first db deviceId limit :
  (forall a, In a (getRecentActivity db deviceId limit) ->
             In a (activity_logs db) /\ a_device_id a = deviceId)
  /\ StronglySorted (fun a b => text_le (a_timestamp b) (a_timestamp a) = true)
       (getRecentActivity db deviceId limit)
  /\ ((0 <= default 50 limit)%Z ->
      (Z.of_nat (length (getRecentActivity db deviceId limit)) <= default 50 limit)%Z).
Proof.
  unfold getRecentActivity, limit_rows.
  set (rows := order_by (descending a_timestamp)
                 (List.filter (fun a => String.eqb (a_device_id a) deviceId)
                    (activity_logs db))).
  assert (forall a, In a rows -> In a (activity_logs db) /\ a_device_id a = deviceId) as Hrows.
  { intros a Ha. apply In_order_by, List.filter_In in Ha as [Ha Hd].
    now apply String.eqb_eq in Hd. }
  assert (StronglySorted (fun a b => text_le (a_timestamp b) (a_timestamp a) = true) rows)
    as Hsorted.
  { apply (order_by_sorted (descending a_timestamp));
      [apply descending_total|apply descending_trans]. }
  destruct (Z.ltb_spec (default 50%Z limit) 0) as [Hneg|Hpos].
  - split; [exact Hrows|]. split; [exact Hsorted|]. lia.
  - split; [|split].
    + intros a Ha. apply Hrows. now apply (firstn_In (Z.to_nat (default 50%Z limit))).
    + now apply firstn_sorted.
    + intros _. pose proof (firstn_le_length (Z.to_nat (default 50%Z limit)) rows). lia.
Qed.

End StoreQueries.

Section StoreKeys.
Import Database.

Lemma filter_keys_NoDup {A} (key : A -> string) (p : A -> bool) l :
  List.NoDup (map key l) -> List.NoDup (map key (List.filter p l)).
Proof.
  induction l as [|x l IH]; simpl; intros Hnd; [constructor|].
  apply List.NoDup_cons_iff in Hnd as [Hnot Hrest].
  destruct (p x); simpl; [|now apply IH].
  apply List.NoDup_cons_iff. split; [|now apply IH].
  intros Hin. apply Hnot. apply in_map_iff in Hin as (y & Hy & Hin).
  apply List.filter_In in Hin as [Hin _]. apply in_map_iff. now exists y.
Qed.

Lemma append_key_NoDup {A} (key : A -> string) l x :
  List.NoDup (map key l) ->
  existsb (fun y => String.eqb (key y) (key x)) l = false ->
  List.NoDup (map key (l ++ [x])).
Proof.
  induction l as [|y l IH]; simpl; intros Hnd Hfree.
  - constructor; [intros []|constructor].
  - apply orb_false_iff in Hfree as [Hy Hfree].
    apply List.NoDup_cons_iff in Hnd as [Hnot Hrest].
    apply List.NoDup_cons_iff. split; [|now apply IH].
    rewrite map_app. intros Hin. apply in_app_or in Hin as [Hin|[Hin|[]]].
    + contradiction.
    + apply String.eqb_neq in Hy. congruence.
Qed.

(** X8: ids are never reused. A uuid that is already the id of a session
    (or command) makes createSession (createCommand) fail; and when the ids
    of the two tables are pairwise distinct they stay so through creation,
    result updates and the sweep. *)
Theorem primary_keys_stay_unique env db :
  List.NoDup (map s_id (sessions db)) ->
  List.NoDup (map k_id (commands db)) ->
  (In (uuid env) (map s_id (sessions db)) -> forall data, createSession env db data = None)
  /\ (In (uuid env) (map k_id (commands db)) -> forall data, createCommand env db data = None)
  /\ (forall data db' sid, createSession env db data = Some (db', sid) ->
        List.NoDup (map s_id (sessions db')) /\ List.NoDup (map k_id (commands db')))
  /\ (forall data db' cid, createCommand env db data = Some (db', cid) ->
        List.NoDup (map s_id (sessions db')) /\ List.NoDup (map k_id (commands db')))
  /\ (forall cid result,
        List.NoDup (map k_id (commands (updateCommandResult env db cid result))))
  /\ List.NoDup (map s_id (sessions (cleanupExpiredData env db)))
  /\ List.NoDup (map k_id (commands (cleanupExpiredData env db))).
Proof.
  intros Hs Hk. repeat apply conj.
  - intros Hin data. unfold createSession.
    apply in_map_iff in Hin as (s & Hid & Hin).
    replace (existsb _ (sessions db)) with true; [reflexivity|].
    symmetry. apply existsb_exists. exists s. split; [exact Hin|now apply String.eqb_eq].
  - intros Hin data. unfold createCommand.
    apply in_map_iff in Hin as (c & Hid & Hin).
    replace (existsb _ (commands db)) with true; [reflexivity|].
    symmetry. apply existsb_exists. exists c. split; [exact Hin|now apply String.eqb_eq].
  - intros data db' sid Hcreate. unfold createSession in Hcreate.
    destruct (existsb _ (sessions db)) eqn:Hfree; [discriminate|].
    injection Hcreate as <- <-. simpl. split; [|exact Hk].
    now apply (append_key_NoDup s_id).
  - intros data db' cid Hcreate. unfold createCommand in Hcreate.
    destruct (existsb _ (commands db)) eqn:Hfree; [discriminate|].
    injection Hcreate as <- <-. simpl. split; [exact Hs|].
    now apply (append_key_NoDup k_id).
  - intros cid result. unfold updateCommandResult. simpl. rewrite map_map.
    erewrite map_ext; [exact Hk|].
    intros c. simpl. now destruct (String.eqb (k_id c) cid).
  - unfold cleanupExpiredData. simpl. rewrite map_map.
    erewrite map_ext; [exact Hs|].
    intros s. unfold sweep_session. now destruct (session_stale env s).
  - unfold cleanupExpiredData. simpl. now apply filter_keys_NoDup.
Qed.

Lemma getDeviceById_updateDeviceStatus env rows deviceId flag d :
  getDeviceById (updateDeviceStatus env rows deviceId flag) d
  = if String.eqb deviceId d
    then option_map
           (fun r => mkDeviceRow (d_id r) (d_device_name r) (d_device_type r) (d_admin_id r)
                       flag (CURRENT_TIMESTAMP env) (d_created_at r) (d_device_info r))
           (getDeviceById rows d)
    else getDeviceById rows d.
Proof.
  unfold getDeviceById, updateDeviceStatus.
  induction rows as [|r rows IH]; simpl.
  - now destruct (String.eqb deviceId d).
  - destruct (String.eqb_spec (d_id r) deviceId) as [Hr|Hr]; simpl.
    + destruct (String.eqb_spec (d_id r) d) as [Hd|Hd].
      * subst. now rewrite String.eqb_refl.
      * subst. destruct (String.eqb_spec (d_id r) d); [contradiction|exact IH].
    + destruct (String.eqb_spec (d_id r) d) as [Hd|Hd].
      * subst. destruct (String.eqb_spec deviceId (d_id r)); [congruence|reflexivity].
      * exact IH.
Qed.

Lemma find_append_fresh {A} (p : A -> bool) l x :
  existsb p l = false -> p x = true -> find p (l ++ [x]) = Some x.
Proof.
  induction l as [|y l IH]; simpl; intros Hfree Hx; [now rewrite Hx|].
  apply orb_false_iff in Hfree as [Hy Hfree]. rewrite Hy. now apply IH.
Qed.

Lemma find_append_other {A} (p : A -> bool) l x :
  p x = false -> find p (l ++ [x]) = find p l.
Proof.
  intros Hx. induction l as [|y l IH]; simpl; [now rewrite Hx|].
  now destruct (p y).
Qed.

(** GetConnectedDevices lists every device row of the admin, whatever
    its connected flag, and only those, most recently seen first. *)
Lemma getConnectedDevices_all_of_admin rows adminId :
  (forall d, In d (getConnectedDevices rows adminId)
             <-> In d rows /\ d_admin_id d = adminId)
  /\ StronglySorted (fun a b => text_le (d_last_seen b) (d_last_seen a) = true)
       (getConnectedDevices rows adminId).
Proof.
  unfold getConnectedDevices. split.
  - intros d. now rewrite In_order_by, List.filter_In, String.eqb_eq.
  - apply (order_by_sorted (descending d_last_seen));
      [apply descending_total|apply descending_trans].
Qed.

(** X9: the life of a device row: once createDevice succeeds the row is
    found under its id and is connected; a second createDevice for the id
    fails; and updateDeviceStatus sets the flag and the last-seen time of
    that row and leaves the lookup of every other id as it was. *)
Theorem createDevice_then_status env rows deviceData rows' :
  createDevice env rows deviceData = Some rows' ->
  (exists row, getDeviceById rows' (n_id deviceData) = Some row
               /\ d_connected row = true /\ d_admin_id row = n_admin deviceData)
  /\ (forall env2 again, n_id again = n_id deviceData ->
        createDevice env2 rows' again = None)
  /\ (forall env2 flag,
        (exists row, getDeviceById (updateDeviceStatus env2 rows' (n_id deviceData) flag)
                       (n_id deviceData) = Some row
                     /\ d_connected row = flag
                     /\ d_last_seen row = CURRENT_TIMESTAMP env2)
        /\ forall other, other <> n_id deviceData ->
             getDeviceById (updateDeviceStatus env2 rows' (n_id deviceData) flag) other
             = getDeviceById rows' other).
Proof.
  intros Hcreate. unfold createDevice in Hcreate.
  destruct (existsb _ rows) eqn:Hfree; [discriminate|].
  injection Hcreate as <-.
  set (row := mkDeviceRow (n_id deviceData) (n_deviceName deviceData) "android"
                (n_admin deviceData) true (CURRENT_TIMESTAMP env) (CURRENT_TIMESTAMP env)
                (default (JObject []) (n_deviceInfo deviceData))).
  assert (getDeviceById (rows ++ [row]) (n_id deviceData) = Some row) as Hfound.
  { unfold getDeviceById. apply find_append_fresh; [exact Hfree|].
    simpl. apply String.eqb_refl. }
  split; [|split].
  - exists row. now split.
  - intros env2 again Hsame. unfold createDevice.
    replace (existsb _ (rows ++ [row])) with true; [reflexivity|].
    symmetry. apply existsb_exists. exists row.
    split; [apply in_or_app; right; now left|].
    rewrite Hsame. simpl. apply String.eqb_refl.
  - intros env2 flag. split.
    + rewrite getDeviceById_updateDeviceStatus, String.eqb_refl, Hfound. simpl.
      eexists. split; [reflexivity|]. now split.
    + intros other Hother. rewrite getDeviceById_updateDeviceStatus.
      destruct (String.eqb_spec (n_id deviceData) other); [congruence|reflexivity].
Qed.

End StoreKeys.

(** ** Token service: credentials, pairing, expiry test and refresh *)

Section TokenService.
Import Auth.
Variable hs256 : string -> JWTPayload -> string.
Variable env_JWT_SECRET : option string.

Abbreviation generateToken := (Auth.generateToken hs256 env_JWT_SECRET).
Abbreviation verifyToken := (Auth.verifyToken hs256 env_JWT_SECRET).
Abbreviation validatePairingToken := (Auth.validatePairingToken hs256 env_JWT_SECRET).
Abbreviation refreshTokenIfNeeded := (Auth.refreshTokenIfNeeded hs256 env_JWT_SECRET).
Abbreviation generateDeviceToken := (Auth.generateDeviceToken hs256 env_JWT_SECRET).
Abbreviation generateAdminToken := (Auth.generateAdminToken hs256 env_JWT_SECRET).

Lemma present_Some v s : present v = Some s <-> v = Some s /\ s <> "".
Proof.
  unfold present. destruct v as [t|]; [|split; [discriminate|intros [F _]; discriminate]].
  destruct (String.eqb_spec t ""); split.
  - discriminate.
  - intros [[= ->] Hne]. contradiction.
  - intros [= ->]. now split.
  - now intros [[= ->] _].
Qed.

(** What a verified payload went through: the right signature and an expiry,
    if any, that lies after the clock second. *)
Lemma verifyToken_Some env token payload :
  verifyToken env token = Some payload ->
  exists signature,
    token = Jws payload signature
    /\ signature = hs256 (Auth.JWT_SECRET env_JWT_SECRET) payload
    /\ forall e, exp payload = Some e -> (clockTimestamp env < e)%Z.
Proof.
  unfold Auth.verifyToken, jwt_verify. destruct token as [raw|claims signature];
    [discriminate|].
  destruct (String.eqb_spec signature (hs256 (Auth.JWT_SECRET env_JWT_SECRET) claims))
    as [Hsig|Hsig]; simpl; [|discriminate].
  destruct (exp claims) as [e|] eqn:He.
  - destruct (Z.leb_spec e (clockTimestamp env)); [discriminate|].
    intros [= <-]. exists signature. repeat split; [exact Hsig|].
    intros e' He'. rewrite He in He'. injection He' as <-. lia.
  - intros [= <-]. exists signature. repeat split; [exact Hsig|].
    intros e' He'. rewrite He in He'. discriminate.
Qed.

(** Only the configured pair signs in: validateAdminCredentials succeeds
    exactly for username admin with password admin123 (both compared as they
    are, letter case included), and then names admin-001. *)
Lemma validateAdminCredentials_exact username password :
  (c_success (validateAdminCredentials username password) = true
   <-> username = "admin" /\ password = "admin123")
  /\ (c_success (validateAdminCredentials username password) = true ->
      c_adminId (validateAdminCredentials username password) = Some "admin-001")
  /\ (c_success (validateAdminCredentials username password) = false ->
      c_adminId (validateAdminCredentials username password) = None
      /\ c_message (validateAdminCredentials username password) = Some "Invalid credentials").
Proof.
  unfold validateAdminCredentials, DEFAULT_ADMIN_username, DEFAULT_ADMIN_password.
  destruct (String.eqb_spec username "admin") as [Hu|Hu];
    destruct (String.eqb_spec password "admin123") as [Hp|Hp]; simpl;
    repeat split; try easy; intros [? ?]; contradiction.
Qed.

(** X10: a pairing token comes back: validatePairingToken on the token of
    generateDeviceToken, for a device id that is not empty and on a clock
    that has not reached the expiry second, succeeds with the admin id and
    the device id the token was made for. *)
Theorem validatePairingToken_roundtrip env env' adminId deviceId :
  deviceId <> "" ->
  (clockTimestamp env' < clockTimestamp env + JWT_EXPIRES_IN)%Z ->
  validatePairingToken env' (generateDeviceToken env adminId deviceId)
  = mkPairingCheck true (Some adminId) (Some deviceId) None.
Proof.
  intros Hne Hclock. unfold Auth.validatePairingToken, Auth.generateDeviceToken.
  rewrite (verifyToken_fresh hs256 env_JWT_SECRET env env' _ Hclock). simpl.
  destruct (String.eqb_spec deviceId ""); [contradiction|reflexivity].
Qed.

(** X11: validatePairingToken succeeds only on a token that verifies,
    carries the role device and a device id that is not empty; the ids it
    returns are those of the token. *)
Theorem validatePairingToken_sound env token :
  p_success (validatePairingToken env token) = true ->
  exists decoded dev,
    verifyToken env token = Some decoded
    /\ type decoded = device
    /\ deviceId decoded = Some dev /\ dev <> ""
    /\ validatePairingToken env token
       = mkPairingCheck true (Some (userId decoded)) (Some dev) None.
Proof.
  unfold Auth.validatePairingToken.
  destruct (Auth.verifyToken hs256 env_JWT_SECRET env token) as [decoded|]; [|discriminate].
  destruct (type decoded) eqn:Hrole; [discriminate|].
  destruct (present (deviceId decoded)) as [dev|] eqn:Hdev; [|discriminate].
  intros _. apply present_Some in Hdev as [Hdev Hne].
  exists decoded, dev. now repeat split.
Qed.

(** X12: the two expiry tests agree in one direction: on a clock at or after
    the epoch, a token that verifyToken accepts and that carries an expiry is
    not expired for isTokenExpired. *)
Theorem verified_token_not_expired env token payload e :
  (0 <= nowMs env)%Z ->
  verifyToken env token = Some payload ->
  exp payload = Some e ->
  isTokenExpired env token = false.
Proof.
  intros Hnow Hv He.
  apply verifyToken_Some in Hv as (signature & -> & _ & Hexp).
  specialize (Hexp e He). unfold isTokenExpired. simpl. rewrite He.
  unfold clockTimestamp in Hexp.
  assert (0 <= nowMs env / 1000)%Z by (apply Z.div_pos; lia).
  destruct (Z.eqb_spec e 0); [lia|].
  destruct (Z.ltb_spec (e * 1000) (nowMs env)) as [Hlt|]; [|reflexivity].
  pose proof (Z.mul_div_le (nowMs env) 1000 ltac:(lia)).
  pose proof (Z.mod_pos_bound (nowMs env) 1000 ltac:(lia)).
  pose proof (Z.div_mod (nowMs env) 1000 ltac:(lia)). lia.
Qed.

(** X13: the two expiry tests disagree at the expiry instant: in the
    millisecond in which the clock reads exactly the expiry second of a
    token, isTokenExpired still answers false while verifyToken already
    returns null. *)
Theorem expiry_instant_disagreement env env' payload :
  (clockTimestamp env + JWT_EXPIRES_IN <> 0)%Z ->
  nowMs env' = ((clockTimestamp env + JWT_EXPIRES_IN) * 1000)%Z ->
  isTokenExpired env' (generateToken env payload) = false
  /\ verifyToken env' (generateToken env payload) = None.
Proof.
  intros Hnz Hnow. split.
  - unfold isTokenExpired, Auth.generateToken, jwt_sign. simpl.
    destruct (Z.eqb_spec (clockTimestamp env + JWT_EXPIRES_IN) 0); [contradiction|].
    rewrite Hnow. apply Z.ltb_irrefl.
  - apply verifyToken_failure
      with (e := TokenExpiredError (clockTimestamp env + JWT_EXPIRES_IN)).
    apply jwt_verify_expired; [reflexivity|].
    unfold clockTimestamp at 2. rewrite Hnow, Z.div_mul by lia. lia.
Qed.

(** X14: refreshTokenIfNeeded hands a verified token back unchanged while
    two hours or more remain before its expiry. *)
Theorem refresh_keeps_token env env' payload :
  (clockTimestamp env' < clockTimestamp env + JWT_EXPIRES_IN)%Z ->
  (2 * 60 * 60 * 1000 <= (clockTimestamp env + JWT_EXPIRES_IN) * 1000 - nowMs env')%Z ->
  refreshTokenIfNeeded env' (generateToken env payload) = Some (generateToken env payload).
Proof.
  intros Hvalid Hleft. unfold Auth.refreshTokenIfNeeded.
  rewrite (verifyToken_fresh hs256 env_JWT_SECRET env env' _ Hvalid). simpl.
  destruct (Z.ltb_spec ((clockTimestamp env + JWT_EXPIRES_IN) * 1000 - nowMs env')
              (2 * 60 * 60 * 1000)); [lia|reflexivity].
Qed.

(** X15: with less than two hours left it issues a new token for the same
    subject, device and role, which verifies on the spot with an expiry 24
    hours after the refresh. *)
Theorem refresh_renews_token env env' payload :
  (clockTimestamp env' < clockTimestamp env + JWT_EXPIRES_IN)%Z ->
  ((clockTimestamp env + JWT_EXPIRES_IN) * 1000 - nowMs env' < 2 * 60 * 60 * 1000)%Z ->
  refreshTokenIfNeeded env' (generateToken env payload) = Some (generateToken env' payload)
  /\ verifyToken env' (generateToken env' payload)
     = Some (mkPayload (r_userId payload) (r_deviceId payload) (r_type payload)
               (Some (clockTimestamp env'))
               (Some (clockTimestamp env' + JWT_EXPIRES_IN)%Z)).
Proof.
  intros Hvalid Hleft. split.
  - unfold Auth.refreshTokenIfNeeded.
    rewrite (verifyToken_fresh hs256 env_JWT_SECRET env env' _ Hvalid). simpl.
    destruct (Z.ltb_spec ((clockTimestamp env + JWT_EXPIRES_IN) * 1000 - nowMs env')
                (2 * 60 * 60 * 1000)); [|lia].
    now destruct payload.
  - apply verifyToken_fresh. unfold JWT_EXPIRES_IN. lia.
Qed.

End TokenService.

(** ** Device simulator: the rest of its behaviour *)

Section SimulatorMore.
Import DeviceSimulator.

Lemma own_property_In {V} (tbl : list (string * V)) key v :
  own_property tbl key = Some v -> In (key, v) tbl.
Proof.
  induction tbl as [|[k w] rest IH]; cbn [own_property]; [discriminate|].
  destruct (String.eqb_spec k key) as [->|Hne].
  - intros [= ->]. now left.
  - intros H. right. now apply IH.
Qed.

Lemma commandOutputs_exit_zero env key entry :
  own_property (commandOutputs env) key = Some entry -> exitCode entry = 0%Z.
Proof.
  intros Hown. apply own_property_In in Hown.
  unfold commandOutputs in Hown. cbn [In] in Hown.
  repeat (destruct Hown as [Hown|Hown]; [now injection Hown as <- <-|]).
  destruct Hown.
Qed.

(** X16: the exit code of executeCommand is 0 exactly when the lower-cased
    command is a key of the table; it depends on the command only through
    its lower-cased text and not at all on the device id. *)
Theorem executeCommand_exit_code env d d' c :
  (c_exitCode (executeCommand env d c) = Some 0%Z
   <-> In (toLowerCase c) (map fst (commandOutputs env)))
  /\ c_exitCode (executeCommand env d c)
     = c_exitCode (executeCommand env d' (toLowerCase c)).
Proof.
  split.
  - unfold executeCommand, get_property.
    destruct (own_property (commandOutputs env) (toLowerCase c)) as [entry|] eqn:E.
    + simpl. rewrite (commandOutputs_exit_zero env _ _ E). split; [|reflexivity].
      intros _. now apply own_property_present in E.
    + split.
      * destruct (inherited_property (toLowerCase c)); simpl; discriminate.
      * intros Hin. apply in_map_iff in Hin as ([k v] & Hk & Hin). simpl in Hk.
        exfalso. revert E. rewrite <- Hk. clear Hk.
        unfold commandOutputs in *. cbn [In] in Hin.
        repeat (destruct Hin as [Hin|Hin];
                [injection Hin as <- <-; vm_compute; discriminate|]).
        destruct Hin.
  - unfold executeCommand. rewrite toLowerCase_idem.
    now destruct (get_property (commandOutputs env) (toLowerCase c)).
Qed.

(** X17: every entry getFileSystem lists lies directly under the directory
    that was asked for: its path is that directory, a slash, and its name
    (the root, the empty path and an omitted path all stand for the root). *)
Theorem getFileSystem_lists_children d path f :
  In f (getFileSystem d path) ->
  f_path f
  = (if String.eqb (default "/" path) "/" || String.eqb (default "/" path) ""
     then "" else default "/" path) ++ "/" ++ f_name f.
Proof.
  unfold getFileSystem.
  destruct (String.eqb (default "/" path) "/" || String.eqb (default "/" path) "") eqn:Hroot.
  - unfold commonFiles. simpl.
    intros Hin. repeat (destruct Hin as [<-|Hin]; [reflexivity|]). destruct Hin.
  - destruct (String.eqb_spec (default "/" path) "/DCIM") as [->|_].
    { simpl. intros [<-|[]]. reflexivity. }
    destruct (String.eqb_spec (default "/" path) "/Download") as [->|_].
    { simpl. intros [<-|[<-|[]]]; reflexivity. }
    intros [].
Qed.

(** X18: updateDeviceConnection keeps the table's ids in place, is without
    effect for an id the table does not have, and for an id it has changes
    the connected flag and the last-seen time of that device only: every
    other lookup returns what it did before. *)
Theorem updateDeviceConnection_effect env devs deviceId flag :
  map id (updateDeviceConnection env devs deviceId flag) = map id devs
  /\ (~ In deviceId (map id devs) ->
      updateDeviceConnection env devs deviceId flag = devs)
  /\ (forall dev, getDeviceById devs deviceId = Some dev ->
        getDeviceById (updateDeviceConnection env devs deviceId flag) deviceId
        = Some (set_connection dev flag (nowISO env)))
  /\ (forall other, other <> deviceId ->
        getDeviceById (updateDeviceConnection env devs deviceId flag) other
        = getDeviceById devs other).
Proof.
  split; [|split; [|split]].
  - induction devs as [|dev rest IH]; simpl; [reflexivity|].
    destruct (String.eqb (id dev) deviceId); simpl; [reflexivity|now rewrite IH].
  - induction devs as [|dev rest IH]; simpl; intros Hnot; [reflexivity|].
    destruct (String.eqb_spec (id dev) deviceId) as [Heq|Hne].
    + exfalso. apply Hnot. now left.
    + f_equal. apply IH. intros Hin. apply Hnot. now right.
  - intros dev Hdev. now rewrite getDeviceById_update, String.eqb_refl, Hdev.
  - intros other Hother. rewrite getDeviceById_update.
    destruct (String.eqb_spec deviceId other); [congruence|reflexivity].
Qed.

(** GenerateScreenshot answers with the empty string exactly for a
    device id the table does not have. *)
Lemma generateScreenshot_empty_iff_unknown env devs deviceId :
  generateScreenshot env devs deviceId = "" <-> getDeviceById devs deviceId = None.
Proof.
  unfold generateScreenshot.
  destruct (getDeviceById devs deviceId) as [device|]; [|easy].
  split; [|discriminate].
  change ("https://placehold.co/" ++ screenResolution device ++ "?text="
            ++ encodeURIComponent env (name device ++ " Screenshot - " ++ nowLocale env))
    with (String "h" ("ttps://placehold.co/" ++ screenResolution device ++ "?text="
            ++ encodeURIComponent env (name device ++ " Screenshot - " ++ nowLocale env))).
  discriminate.
Qed.

End SimulatorMore.

(** ** Session relay: what the handlers keep and what they send *)

Section RelayMore.
Import DeviceSimulator Relay.
Variable hs256 : string -> Auth.JWTPayload -> string.
Variable env_JWT_SECRET : option string.

Abbreviation handle := (Relay.handle hs256 env_JWT_SECRET).
Abbreviation reachable := (Relay.reachable hs256 env_JWT_SECRET).

Lemma log_request_fields env st sid deviceId action details :
  sockets (log_request env st sid deviceId action details) = sockets st
  /\ rooms (log_request env st sid deviceId action details) = rooms st
  /\ connectedDevices (log_request env st sid deviceId action details) = connectedDevices st
  /\ adminSessions (log_request env st sid deviceId action details) = adminSessions st
  /\ simulator (log_request env st sid deviceId action details) = simulator st.
Proof. unfold log_request. now destruct (truthy (adminSessions st !! sid)). Qed.

Lemma log_request_database env st sid deviceId action details :
  database (log_request env st sid deviceId action details)
  = match truthy (adminSessions st !! sid) with
    | Some adminId =>
        Database.logActivity env (database st)
          (Database.mkEntry deviceId adminId action details)
    | None => database st
    end.
Proof. unfold log_request. now destruct (truthy (adminSessions st !! sid)). Qed.


(** X20: the activity log is append-only for the relay: whatever the event,
    the rows that were there stay in place, at most one row is added at the
    end, and the sessions and commands tables are not touched. *)
Theorem handle_appends_activity env st sid ev :
  exists added,
    Database.activity_logs (database (fst (handle env st sid ev)))
    = (Database.activity_logs (database st) ++ added)%list
    /\ length added <= 1
    /\ Database.sessions (database (fst (handle env st sid ev)))
       = Database.sessions (database st)
    /\ Database.commands (database (fst (handle env st sid ev)))
       = Database.commands (database st).
Proof.
  assert (forall (db : Database.DB),
             exists added : list Database.ActivityRow,
               Database.activity_logs db = (Database.activity_logs db ++ added)%list
               /\ length added <= 1
               /\ Database.sessions db = Database.sessions db
               /\ Database.commands db = Database.commands db) as Hsame.
  { intros db. exists []. rewrite app_nil_r. simpl. repeat split; lia. }
  assert (forall e (db : Database.DB) entry,
             exists added : list Database.ActivityRow,
               Database.activity_logs (Database.logActivity e db entry)
               = (Database.activity_logs db ++ added)%list
               /\ length added <= 1
               /\ Database.sessions (Database.logActivity e db entry) = Database.sessions db
               /\ Database.commands (Database.logActivity e db entry) = Database.commands db)
    as Hlog.
  { intros e db entry. eexists. simpl. repeat split. simpl. lia. }
  destruct ev; simpl;
    try (rewrite log_request_database;
         destruct (truthy (adminSessions st !! sid)); [apply Hlog|apply Hsame]).
  - unfold on_admin_authenticate.
    destruct (verifyToken hs256 env_JWT_SECRET env token) as [decoded|]; [|apply Hsame].
    destruct (is_admin (Auth.type decoded)); [apply Hlog|apply Hsame].
  - apply Hsame.
  - apply Hsame.
  - unfold on_disconnect.
    match goal with
    | |- context [fold_left ?f ?l (?s, ?o)] =>
        destruct (loop_other_fields env sid (truthy (adminSessions (close_socket st sid) !! sid))
                    l s o) as (_ & _ & _ & ->)
    end.
    simpl. destruct (truthy (adminSessions st !! sid)); [apply Hlog|apply Hsame].
Qed.

End RelayMore.

Section RelayInvariants.
Import DeviceSimulator Relay.
Variable hs256 : string -> Auth.JWTPayload -> string.
Variable env_JWT_SECRET : option string.

Abbreviation handle := (Relay.handle hs256 env_JWT_SECRET).
Abbreviation reachable := (Relay.reachable hs256 env_JWT_SECRET).

Lemma Map_set_In {V} (m : list (string * V)) k v e :
  In e (Map_set m k v) -> e = (k, v) \/ In e m.
Proof.
  induction m as [|[k0 v0] rest IH]; simpl.
  - intros [<-|[]]. now left.
  - destruct (String.eqb_spec k0 k) as [->|Hne]; simpl.
    + intros [<-|Hin]; [now left|right; now right].
    + intros [<-|Hin]; [right; now left|].
      destruct (IH Hin) as [->|Hin']; [now left|right; now right].
Qed.

Lemma Map_delete_In {V} (m : list (string * V)) k e :
  In e (Map_delete m k) <-> In e m /\ fst e <> k.
Proof.
  unfold Map_delete. rewrite List.filter_In, negb_true_iff, String.eqb_neq. reflexivity.
Qed.

(** What is left of the registrations after the loop of the disconnect
    handler: entries that were there, none under a key that the loop met
    with the closing socket's id. *)
Lemma loop_remaining env sid adminId entries st out e :
  In e (connectedDevices (fst (fold_left (disconnect_entry env sid adminId) entries (st, out)))) ->
  In e (connectedDevices st)
  /\ forall k data, In (k, data) entries -> socketId data = sid -> fst e <> k.
Proof.
  revert st out. induction entries as [|[k0 dat] rest IH]; intros st out Hin; simpl in Hin.
  - split; [exact Hin|]. intros k data [].
  - destruct (String.eqb_spec (socketId dat) sid) as [Hs|Hs].
    + apply IH in Hin as [Hin Hrest]. simpl in Hin.
      apply Map_delete_In in Hin as [Hin Hk]. split; [exact Hin|].
      intros k data [Heq|Hin'] Hsid.
      * injection Heq as <- <-. exact Hk.
      * now apply (Hrest k data).
    + apply IH in Hin as [Hin Hrest]. split; [exact Hin|].
      intros k data [Heq|Hin'] Hsid.
      * injection Heq as <- <-. contradiction.
      * now apply (Hrest k data).
Qed.

Lemma members_join rms room sid room' c :
  c ∈ members (<[ room := {[ sid ]} ∪ members rms room ]> rms) room' ->
  c = sid \/ c ∈ members rms room'.
Proof.
  unfold members. destruct (decide (room = room')) as [->|Hne].
  - rewrite lookup_insert_eq. simpl. intros Hin.
    apply elem_of_union in Hin as [Hin|Hin]; [|now right].
    apply elem_of_singleton in Hin. now left.
  - rewrite lookup_insert_ne by exact Hne. now right.
Qed.

Lemma members_leave (rms : gmap string (gset string)) sid room c :
  c ∈ members ((fun s : gset string => s ∖ {[ sid ]}) <$> rms) room <->
  c ∈ members rms room /\ c <> sid.
Proof.
  unfold members. rewrite lookup_fmap.
  destruct (rms !! room) as [ms|]; simpl.
  - rewrite elem_of_difference, elem_of_singleton. reflexivity.
  - split; [intros H; now apply not_elem_of_empty in H|intros [H _]; exact H].
Qed.

Lemma truthy_Some v a : truthy v = Some a <-> v = Some a /\ a <> "".
Proof.
  unfold truthy. destruct v as [t|]; [|split; [discriminate|intros [F _]; discriminate]].
  destruct (String.eqb_spec t ""); split.
  - discriminate.
  - intros [[= ->] Hne]. contradiction.
  - intros [= ->]. now split.
  - now intros [[= ->] _].
Qed.

Lemma disconnect_state env st sid reason :
  let r := handle env st sid (disconnect reason) in
  sockets (fst r) = sockets st ∖ {[ sid ]}
  /\ rooms (fst r) = (fun s : gset string => s ∖ {[ sid ]}) <$> rooms st
  /\ adminSessions (fst r)
     = match truthy (adminSessions st !! sid) with
       | Some _ => delete sid (adminSessions st)
       | None => adminSessions st
       end.
Proof.
  simpl. unfold on_disconnect.
  match goal with
  | |- context [fold_left ?f ?l (?s, ?o)] =>
      destruct (loop_other_fields env sid (truthy (adminSessions (close_socket st sid) !! sid))
                  l s o) as (-> & -> & -> & _)
  end.
  simpl. now destruct (truthy (adminSessions st !! sid)).
Qed.

Lemma disconnect_registrations env st sid reason e :
  In e (connectedDevices (fst (handle env st sid (disconnect reason)))) ->
  In e (connectedDevices st) /\ socketId (snd e) <> sid.
Proof.
  destruct (on_disconnect_unfold hs256 env_JWT_SECRET env st sid reason)
    as (st1 & Hdev & _ & ->).
  intros Hin. apply loop_remaining in Hin as [Hin Hnot]. rewrite Hdev in Hin.
  split; [exact Hin|]. intros Hsid. destruct e as [k data].
  now apply (Hnot k data).
Qed.

Lemma handle_keeps_names_open env st sid ev :
  names_open_sockets st -> sid ∈ sockets st ->
  names_open_sockets (fst (handle env st sid ev)).
Proof.
  intros (Hdev & Hroom & Hadm) Hopen.
  destruct ev;
    try (simpl;
         match goal with
         | |- context [log_request ?e ?s ?i ?d ?a ?j] =>
             destruct (log_request_fields e s i d a j) as (H1 & H2 & H3 & H4 & H5)
         end;
         unfold names_open_sockets; rewrite H1, H2, H3, H4; now repeat split).
  - simpl. unfold on_admin_authenticate.
    destruct (verifyToken hs256 env_JWT_SECRET env token) as [decoded|];
      [|now repeat split].
    destruct (is_admin (Auth.type decoded)); [|now repeat split].
    unfold names_open_sockets. simpl. repeat split; try assumption.
    intros c a Hc Hne. destruct (decide (sid = c)) as [<-|Hother]; [exact Hopen|].
    rewrite lookup_insert_ne in Hc by exact Hother. now apply (Hadm c a).
  - simpl. unfold names_open_sockets. simpl. repeat split; try assumption.
    intros room c Hc. apply members_join in Hc as [->|Hc]; [exact Hopen|].
    now apply (Hroom room).
  - simpl. unfold names_open_sockets. simpl. repeat split; try assumption.
    intros d data Hin. apply Map_set_In in Hin as [Heq|Hin]; [|now apply (Hdev d)].
    injection Heq as -> ->. exact Hopen.
  - destruct (disconnect_state env st sid reason) as (Hs & Hr & Ha).
    unfold names_open_sockets. rewrite Hs, Hr, Ha. repeat split.
    + intros d data Hin. apply disconnect_registrations in Hin as [Hin Hne].
      apply elem_of_difference. split; [now apply (Hdev d)|].
      intros Hsid. apply elem_of_singleton in Hsid. now apply Hne.
    + intros room c Hc. apply members_leave in Hc as [Hc Hne].
      apply elem_of_difference. split; [now apply (Hroom room)|].
      intros Hsid. now apply elem_of_singleton in Hsid.
    + intros c a Hc Hne. apply elem_of_difference.
      destruct (truthy (adminSessions st !! sid)) as [a0|] eqn:Ht.
      * destruct (decide (sid = c)) as [<-|Hother].
        { rewrite lookup_delete_eq in Hc. discriminate. }
        rewrite lookup_delete_ne in Hc by exact Hother.
        split; [now apply (Hadm c a)|].
        intros Hsid. apply elem_of_singleton in Hsid. congruence.
      * split; [now apply (Hadm c a)|].
        intros Hsid. apply elem_of_singleton in Hsid. subst c.
        assert (truthy (adminSessions st !! sid) = Some a) as Habs
          by (apply truthy_Some; now split).
        congruence.
Qed.

Lemma reachable_names_open st : reachable st -> names_open_sockets st.
Proof.
  induction 1 as [boot|st sid _ IH Hfresh|st env sid ev _ IH Hopen].
  - unfold names_open_sockets, initial, members. simpl. repeat split.
    + intros d data [].
    + intros room c Hc. rewrite lookup_empty in Hc. simpl in Hc.
      now apply not_elem_of_empty in Hc.
    + intros c a Hc. rewrite lookup_empty in Hc. discriminate.
  - destruct IH as (Hdev & Hroom & Hadm).
    unfold names_open_sockets, connection. simpl. repeat split.
    + intros d data Hin. apply elem_of_union. right. now apply (Hdev d).
    + intros room c Hc. apply elem_of_union. right. now apply (Hroom room).
    + intros c a Hc Hne. apply elem_of_union. right. now apply (Hadm c a).
  - now apply handle_keeps_names_open.
Qed.


End RelayInvariants.

Section RelayDeliveries.
Import DeviceSimulator Relay.
Variable hs256 : string -> Auth.JWTPayload -> string.
Variable env_JWT_SECRET : option string.

Abbreviation handle := (Relay.handle hs256 env_JWT_SECRET).
Abbreviation reachable := (Relay.reachable hs256 env_JWT_SECRET).

(** An emission of a handler run for socket [sid] goes to [sid] itself or
    to a room, [sid] excepted. *)
Lemma loop_targets env sid adminId entries st out :
  (forall em, In em out -> exists room, target em = to_room_except room sid) ->
  forall em,
    In em (snd (fold_left (disconnect_entry env sid adminId) entries (st, out))) ->
    exists room, target em = to_room_except room sid.
Proof.
  revert st out. induction entries as [|[k dat] rest IH]; intros st out Hout em; simpl;
    [apply Hout|].
  destruct (String.eqb (socketId dat) sid); apply IH; [|exact Hout].
  intros em' Hin. apply in_app_or in Hin as [Hin|Hin]; [now apply Hout|].
  destruct adminId as [a|]; [|destruct Hin].
  destruct Hin as [<-|[]]. now eexists.
Qed.

Lemma handle_targets env st sid ev em :
  In em (snd (handle env st sid ev)) ->
  target em = to_socket sid \/ exists room, target em = to_room_except room sid.
Proof.
  destruct ev; simpl;
    try (intros [<-|[]]; now left).
  - unfold on_admin_authenticate.
    destruct (verifyToken hs256 env_JWT_SECRET env token) as [decoded|];
      [destruct (is_admin (Auth.type decoded))|]; simpl; intros [<-|[]]; now left.
  - intros [<-|[<-|[]]]; [right; now eexists|now left].
  - unfold on_disconnect. intros Hin. right.
    eapply loop_targets; [|exact Hin]. intros em' [].
Qed.

Lemma handle_sockets env st sid ev c :
  c ∈ sockets (fst (handle env st sid ev)) -> c ∈ sockets st.
Proof.
  destruct ev;
    try (simpl;
         match goal with
         | |- context [log_request ?e ?s ?i ?d ?a ?j] =>
             destruct (log_request_fields e s i d a j) as (-> & _)
         end; now trivial);
    try (simpl; now trivial).
  - simpl. unfold on_admin_authenticate.
    destruct (verifyToken hs256 env_JWT_SECRET env token) as [decoded|];
      [destruct (is_admin (Auth.type decoded))|]; simpl; now trivial.
  - destruct (disconnect_state hs256 env_JWT_SECRET env st sid reason) as (-> & _).
    intros Hc. now apply elem_of_difference in Hc as [Hc _].
Qed.

(** X22: nothing is sent to a closed socket: in a reachable state, every
    event a handler emits for an open socket is received by sockets that
    are open. *)
Theorem deliveries_reach_open_sockets env st sid ev c e :
  reachable st -> sid ∈ sockets st ->
  delivered (rooms (fst (handle env st sid ev))) (snd (handle env st sid ev)) c e ->
  c ∈ sockets st.
Proof.
  intros Hreach Hopen (em & Hin & _ & Hrcv).
  destruct (handle_targets env st sid ev em Hin) as [Ht|[room Ht]];
    rewrite Ht in Hrcv; simpl in Hrcv.
  - apply elem_of_singleton in Hrcv. now subst c.
  - apply elem_of_difference in Hrcv as [Hmem _].
    apply (handle_sockets env st sid ev).
    assert (reachable (fst (handle env st sid ev))) as Hreach'
      by now apply reach_event.
    apply reachable_names_open in Hreach' as (_ & Hroom & _).
    now apply (Hroom room).
Qed.

Lemma filter_all {A} (l : list A) : List.filter (fun _ => true) l = l.
Proof. induction l as [|x l IH]; simpl; [reflexivity|now rewrite IH]. Qed.

Lemma filter_twice {A} (p q : A -> bool) l :
  List.filter p (List.filter q l) = List.filter (fun x => q x && p x) l.
Proof.
  induction l as [|x l IH]; simpl; [reflexivity|].
  destruct (q x); simpl; [destruct (p x); now rewrite IH|exact IH].
Qed.

Lemma loop_connected env sid adminId entries st out :
  connectedDevices (fst (fold_left (disconnect_entry env sid adminId) entries (st, out)))
  = List.filter
      (fun e => negb (existsb (fun x => String.eqb (fst x) (fst e)
                                        && String.eqb (socketId (snd x)) sid) entries))
      (connectedDevices st).
Proof.
  revert st out. induction entries as [|[k dat] rest IH]; intros st out; simpl.
  - now rewrite filter_all.
  - destruct (String.eqb (socketId dat) sid); rewrite IH; simpl.
    + unfold Map_delete. rewrite filter_twice. apply List.filter_ext.
      intros e. rewrite andb_true_r, negb_orb, (String.eqb_sym k (fst e)). reflexivity.
    + apply List.filter_ext. intros e. now rewrite andb_false_r.
Qed.

(** X23: closing a socket removes its registrations and no others: in a
    reachable state the registrations after the disconnect handler are those
    of the other sockets, in their order; the socket is gone from the open
    sockets and from every room, and so is its admin session when the admin
    id is not empty. *)
Theorem disconnect_removes_own_registrations env st sid reason :
  reachable st ->
  let st' := fst (handle env st sid (disconnect reason)) in
  connectedDevices st'
  = List.filter (fun e => negb (String.eqb (socketId (snd e)) sid)) (connectedDevices st)
  /\ (sid ∉ sockets st')
  /\ (forall room, sid ∉ members (rooms st') room)
  /\ (forall a, adminSessions st !! sid = Some a -> a <> "" ->
                adminSessions st' !! sid = None).
Proof.
  intros Hreach st'. subst st'.
  destruct (disconnect_state hs256 env_JWT_SECRET env st sid reason) as (Hs & Hr & Ha).
  split; [|split; [|split]].
  - destruct (on_disconnect_unfold hs256 env_JWT_SECRET env st sid reason)
      as (st1 & Hdev & _ & ->).
    rewrite loop_connected, Hdev. apply List.filter_ext_in. intros [k data] Hin. simpl.
    f_equal. destruct (String.eqb_spec (socketId data) sid) as [Hsid|Hsid].
    + apply existsb_exists. exists (k, data). simpl.
      split; [exact Hin|]. rewrite String.eqb_refl. now apply String.eqb_eq.
    + destruct (existsb _ (connectedDevices st)) eqn:E; [|reflexivity].
      apply existsb_exists in E as ([k' data'] & Hin' & Hboth). simpl in Hboth.
      apply andb_true_iff in Hboth as [Hk Hs']. apply String.eqb_eq in Hk, Hs'. subst k'.
      pose proof (Map_entry_unique _ _ _ _
                    (reachable_NoDup hs256 env_JWT_SECRET st Hreach) Hin Hin').
      congruence.
  - rewrite Hs. intros Hin. apply elem_of_difference in Hin as [_ Hin].
    apply Hin. now apply elem_of_singleton.
  - intros room. rewrite Hr. intros Hin. now apply members_leave in Hin as [_ Hin].
  - intros a Hsession Hne. rewrite Ha.
    replace (truthy (adminSessions st !! sid)) with (Some a)
      by (symmetry; apply truthy_Some; now split).
    apply lookup_delete_eq.
Qed.

Lemma Map_set_In_new {V} (m : list (string * V)) k v : In (k, v) (Map_set m k v).
Proof.
  induction m as [|[k0 v0] rest IH]; simpl; [now left|].
  destruct (String.eqb_spec k0 k) as [->|Hne]; [now left|now right].
Qed.


(** X25: the connected flag follows the registration: registering a device
    the simulator knows switches its flag on and stamps its last-seen time,
    and when the registering socket closes the registration is gone and the
    flag is off again. *)
Theorem register_then_disconnect_flag env env' st sid d info a reason :
  is_Some (getDeviceById (simulator st) d) ->
  let st1 := fst (handle env st sid (device_register d info a)) in
  let st2 := fst (handle env' st1 sid (disconnect reason)) in
  (exists dev, getDeviceById (simulator st1) d = Some dev
               /\ connected dev = true /\ lastSeen dev = nowISO env)
  /\ Map_get (connectedDevices st2) d = None
  /\ flag_off (simulator st2) d.
Proof.
  intros [dev0 Hdev0] st1 st2.
  assert (getDeviceById (simulator st1) d = Some (set_connection dev0 true (nowISO env)))
    as Hon.
  { subst st1. simpl. now rewrite getDeviceById_update, String.eqb_refl, Hdev0. }
  split; [eexists; split; [exact Hon|now split]|].
  assert (bound_device st1 sid d) as Hbound.
  { exists (mkData info sid (nowISO env)). split; [|reflexivity].
    subst st1. simpl. apply Map_set_In_new. }
  pose proof (disconnect_removes_registration hs256 env_JWT_SECRET env' st1 sid reason d
                Hbound) as H.
  cbv zeta in H. destruct H as (Hgone & Hflag & _).
  split; [exact Hgone|]. apply Hflag. rewrite Hon. now eexists.
Qed.

End RelayDeliveries.

(** ** Login route *)

Section LoginFacts.
Import Relay.
Variable hs256 : string -> Auth.JWTPayload -> string.
Variable env_JWT_SECRET : option string.

Abbreviation POST := (Login.POST hs256 env_JWT_SECRET).
Abbreviation handle := (Relay.handle hs256 env_JWT_SECRET).


(** X27: the token of a successful login opens an admin session: presented
    in admin:authenticate on a clock that has not reached its expiry second,
    it binds the socket to admin-001 and is answered with success. *)
Theorem login_token_authenticates env env' db st sid :
  (Auth.clockTimestamp env' < Auth.clockTimestamp env + Auth.JWT_EXPIRES_IN)%Z ->
  exists token,
    Login.body (snd (POST env db (Some (Some "admin", Some "admin123"))))
    = Login.granted token "admin-001" "Login successful"
    /\ adminSessions (fst (handle env' st sid (admin_authenticate token))) !! sid
       = Some "admin-001"
    /\ snd (handle env' st sid (admin_authenticate token))
       = [ emit (to_socket sid) (admin_authenticated true (Some "admin-001") None) ].
Proof.
  intros Hclock. eexists. split; [reflexivity|].
  simpl. unfold on_admin_authenticate, verifyToken, Auth.generateAdminToken.
  rewrite (verifyToken_fresh hs256 env_JWT_SECRET env env' _ Hclock). simpl.
  split; [apply lookup_insert_eq|reflexivity].
Qed.

End LoginFacts.

(** ** Dashboard hooks *)

Section DashboardFacts.
Import DeviceSimulator Relay Dashboard.
Variable hs256 : string -> Auth.JWTPayload -> string.
Variable env_JWT_SECRET : option string.

Abbreviation handle := (Relay.handle hs256 env_JWT_SECRET).
Abbreviation run := (Relay.run hs256 env_JWT_SECRET).

(** X28: the handshake of the admin hook joins without signing in. The
    authenticate event it sends carries no token and is refused, so after
    the two events the socket is a member of the admin's room while the
    admin sessions and the store are as before; for a socket that had no
    session, no later control request leaves an activity row. *)
Theorem dashboard_handshake_leaves_no_session env st sid adminId :
  adminSessions st !! sid = None ->
  let st' := run st (map (sends env sid) (handshake adminId)) in
  snd (handle env st sid (admin_authenticate (Auth.Malformed "")))
  = [ emit (to_socket sid) (admin_authenticated false None (Some "Invalid token")) ]
  /\ sid ∈ members (rooms st') (admin_room adminId)
  /\ adminSessions st' = adminSessions st
  /\ database st' = database st
  /\ (forall env' ev, is_request ev = true ->
        database (fst (handle env' st' sid ev)) = database st').
Proof.
  intros Hnone st'. subst st'. simpl.
  split; [reflexivity|]. split; [|split; [reflexivity|split; [reflexivity|]]].
  - unfold members. rewrite lookup_insert_eq. simpl.
    apply elem_of_union. left. now apply elem_of_singleton.
  - intros env' ev Hreq.
    destruct ev; try discriminate Hreq; simpl;
      rewrite log_request_database; simpl; now rewrite Hnone.
Qed.

Lemma receive_keeps_invariants env view ev :
  List.NoDup (connectedDevices view) -> length (deviceEvents view) <= 100 ->
  List.NoDup (connectedDevices (receive env view ev))
  /\ length (deviceEvents (receive env view ev)) <= 100.
Proof.
  intros Hnd Hlen.
  assert (forall type d data,
             length (push_event env type d data (deviceEvents view)) <= 100) as Hpush.
  { intros type d data. unfold push_event. simpl.
    pose proof (firstn_le_length 99 (deviceEvents view)). lia. }
  destruct ev;
    cbn [receive handleDeviceConnect handleDeviceDisconnect handleDeviceEvent
           connectedDevices deviceEvents];
    try (split; [assumption|apply Hpush || assumption]).
  - split; [|apply Hpush].
    destruct (existsb (String.eqb deviceId) (connectedDevices view)) eqn:E; [exact Hnd|].
    induction (connectedDevices view) as [|x l IH]; simpl.
    + constructor; [intros []|constructor].
    + simpl in E. apply orb_false_iff in E as [Hx E].
      apply List.NoDup_cons_iff in Hnd as [Hnot Hrest].
      apply List.NoDup_cons_iff. split; [|now apply IH].
      intros Hin. apply in_app_or in Hin as [Hin|[Hin|[]]]; [contradiction|].
      apply String.eqb_neq in Hx. congruence.
  - split; [|apply Hpush]. now apply List.NoDup_filter.
Qed.

(** X29: the admin hook's view stays well-formed whatever the relay sends:
    starting from the empty view, the list of connected device ids never
    holds an id twice and the event feed never exceeds 100 entries. *)
Theorem admin_view_bounded feed :
  List.NoDup (connectedDevices (receive_all (mkAdminView [] []) feed))
  /\ length (deviceEvents (receive_all (mkAdminView [] []) feed)) <= 100.
Proof.
  unfold receive_all.
  assert (forall view,
             List.NoDup (connectedDevices view) -> length (deviceEvents view) <= 100 ->
             List.NoDup (connectedDevices
                           (fold_left (fun v item => receive (fst item) v (snd item)) feed view))
             /\ length (deviceEvents
                          (fold_left (fun v item => receive (fst item) v (snd item)) feed view))
                <= 100) as Hgen.
  { induction feed as [|[env ev] feed IH]; intros view Hnd Hlen; simpl; [now split|].
    destruct (receive_keeps_invariants env view ev Hnd Hlen) as [Hnd' Hlen'].
    now apply IH. }
  apply Hgen; simpl; [constructor|lia].
Qed.

(** The list of connected ids follows the two broadcasts: after
    device:connect the id is in the list, after device:disconnect it is not,
    and neither event changes whether another id is in the list. *)
Lemma admin_view_tracks_devices env view d info other :
  In d (connectedDevices (receive env view (device_connect d info)))
  /\ ~ In d (connectedDevices (receive env view (device_disconnect d)))
  /\ (other <> d ->
      (In other (connectedDevices (receive env view (device_connect d info)))
       <-> In other (connectedDevices view))
      /\ (In other (connectedDevices (receive env view (device_disconnect d)))
          <-> In other (connectedDevices view))).
Proof.
  simpl. split; [|split].
  - destruct (existsb (String.eqb d) (connectedDevices view)) eqn:E.
    + apply existsb_exists in E as (x & Hin & Hx). apply String.eqb_eq in Hx. now subst x.
    + apply in_or_app. right. now left.
  - intros Hin. apply List.filter_In in Hin as [_ Hne].
    now rewrite String.eqb_refl in Hne.
  - intros Hother. split.
    + destruct (existsb (String.eqb d) (connectedDevices view)); [reflexivity|].
      rewrite in_app_iff. simpl. intuition congruence.
    + rewrite List.filter_In, negb_true_iff, String.eqb_neq. intuition.
Qed.

(** X30: a command sent through the device hook finds its answer: the relay
    replies to the sender under the command id the hook made up, and the
    hook stores under that id the output and exit code executeCommand gave
    for the command. *)
Theorem command_reply_stored_under_id env env' st sid deviceId command view :
  exists e,
    snd (handle env' st sid (snd (sendCommand env deviceId command)))
    = [ emit (to_socket sid) e ]
    /\ Map_get (commandResults (receive_device deviceId view e))
         (fst (sendCommand env deviceId command))
       = Some (mkReply (c_output (executeCommand env' deviceId command))
                 (c_exitCode (executeCommand env' deviceId command))
                 (c_timestamp (executeCommand env' deviceId command))).
Proof.
  eexists. split.
  - simpl. unfold on_device_command. reflexivity.
  - change (truthy (Some ("cmd_" ++ numberToString env (nowMs env))))
      with (Some ("cmd_" ++ numberToString env (nowMs env))).
    simpl. rewrite String.eqb_refl. simpl. apply Map_get_set_eq.
Qed.

End DashboardFacts.

(** ** Worked instances of the further properties *)

Section MoreInstances.
Import DeviceSimulator Relay.

Lemma session_not_stale_on_expiry_day_witness :
  Database.session_stale Sample.env SampleStore.morning_session = false
  /\ Database.sweep_session Sample.env SampleStore.morning_session
     = SampleStore.morning_session.
Proof.
  exact (session_not_stale_on_expiry_day Sample.env SampleStore.morning_session
           "2023-11-14" "09:00:00.000Z" "22:13:20" eq_refl eq_refl).
Defined.

Lemma createSession_then_active_witness :
  exists s,
    Database.getActiveSession Sample.env
      (Database.mkDB
         [ Database.mkSession (uuid Sample.env) "device-001" "admin-001" "token-text" true
             (CURRENT_TIMESTAMP Sample.env) "2023-11-15T22:13:20.000Z" ] [] [])
      "device-001" = Some s
    /\ Database.s_device_id s = "device-001"
    /\ Database.s_active s = true
    /\ Database.text_le (CURRENT_TIMESTAMP Sample.env) (Database.s_created_at s) = true.
Proof.
  exact (createSession_then_active Sample.env Sample.env Database.empty
           SampleStore.new_session _ _ eq_refl eq_refl).
Defined.

Lemma command_pending_until_result_witness :
  exists c,
    In c (Database.getPendingCommands
            (Database.mkDB [] []
               [ Database.mkCommandRow (uuid Sample.env) "device-001" "ls" Database.pending
                   None None (CURRENT_TIMESTAMP Sample.env) None ])
            "device-001")
    /\ Database.k_id c = uuid Sample.env /\ Database.k_command c = "ls".
Proof.
  exact (proj1 (command_pending_until_result Sample.env Database.empty
                  SampleStore.new_command _ _ eq_refl)).
Defined.

Lemma primary_keys_stay_unique_witness :
  List.NoDup (map Database.s_id (Database.sessions SampleStore.one_session_store))
  /\ List.NoDup
       (map Database.s_id
          (Database.sessions
             (Database.cleanupExpiredData Sample.env SampleStore.one_session_store))).
Proof.
  assert (List.NoDup (map Database.s_id (Database.sessions SampleStore.one_session_store)))
    as Hs by (constructor; [intros []|constructor]).
  assert (List.NoDup (map Database.k_id (Database.commands SampleStore.one_session_store)))
    as Hk by constructor.
  split; [exact Hs|].
  pose proof (primary_keys_stay_unique Sample.env SampleStore.one_session_store Hs Hk) as H.
  destruct H as (_ & _ & _ & _ & _ & Hsweep & _). exact Hsweep.
Defined.

Lemma createDevice_then_status_witness :
  exists row,
    Database.getDeviceById
      [ Database.mkDeviceRow "device-004" "Nothing Phone" "android" "admin-001" true
          (CURRENT_TIMESTAMP Sample.env) (CURRENT_TIMESTAMP Sample.env) (JObject []) ]
      "device-004" = Some row
    /\ Database.d_connected row = true /\ Database.d_admin_id row = "admin-001".
Proof.
  exact (proj1 (createDevice_then_status Sample.env [] SampleStore.new_device _ eq_refl)).
Defined.

Lemma validatePairingToken_roundtrip_witness :
  Auth.validatePairingToken Sample.hs256 None SampleStore.env_1h
    (Auth.generateDeviceToken Sample.hs256 None Sample.env "admin-001" "device-001")
  = Auth.mkPairingCheck true (Some "admin-001") (Some "device-001") None.
Proof.
  apply (validatePairingToken_roundtrip Sample.hs256 None Sample.env SampleStore.env_1h
           "admin-001" "device-001");
    [discriminate|vm_compute; reflexivity].
Defined.

Lemma validatePairingToken_sound_witness :
  exists decoded dev,
    Auth.verifyToken Sample.hs256 None Sample.env Sample.device_token = Some decoded
    /\ Auth.type decoded = Auth.device
    /\ Auth.deviceId decoded = Some dev /\ dev <> ""
    /\ Auth.validatePairingToken Sample.hs256 None Sample.env Sample.device_token
       = Auth.mkPairingCheck true (Some (Auth.userId decoded)) (Some dev) None.
Proof.
  exact (validatePairingToken_sound Sample.hs256 None Sample.env Sample.device_token
           eq_refl).
Defined.

Lemma verified_token_not_expired_witness :
  Auth.isTokenExpired Sample.env Sample.admin_token = false.
Proof.
  apply (verified_token_not_expired Sample.hs256 None Sample.env Sample.admin_token
           (Auth.mkPayload "admin-001" None Auth.admin
              (Some 1700000000%Z) (Some 1700086400%Z)) 1700086400%Z);
    [vm_compute; discriminate|reflexivity|reflexivity].
Defined.

Lemma expiry_instant_disagreement_witness :
  Auth.isTokenExpired SampleStore.env_expiry Sample.admin_token = false
  /\ Auth.verifyToken Sample.hs256 None SampleStore.env_expiry Sample.admin_token = None.
Proof.
  apply (expiry_instant_disagreement Sample.hs256 None Sample.env SampleStore.env_expiry
           (Auth.mkRequest "admin-001" None Auth.admin));
    [vm_compute; discriminate|reflexivity].
Defined.

Lemma refresh_keeps_token_witness :
  Auth.refreshTokenIfNeeded Sample.hs256 None SampleStore.env_1h Sample.admin_token
  = Some Sample.admin_token.
Proof.
  apply (refresh_keeps_token Sample.hs256 None Sample.env SampleStore.env_1h
           (Auth.mkRequest "admin-001" None Auth.admin));
    [vm_compute; reflexivity|vm_compute; discriminate].
Defined.

Lemma refresh_renews_token_witness :
  Auth.refreshTokenIfNeeded Sample.hs256 None SampleStore.env_23h Sample.admin_token
  = Some (Auth.generateToken Sample.hs256 None SampleStore.env_23h
            (Auth.mkRequest "admin-001" None Auth.admin)).
Proof.
  apply (refresh_renews_token Sample.hs256 None Sample.env SampleStore.env_23h
           (Auth.mkRequest "admin-001" None Auth.admin));
    vm_compute; reflexivity.
Defined.

Lemma getFileSystem_lists_children_witness :
  f_path (mkFile "image.jpg" "/Download/image.jpg" file 1536000
            "2024-01-21 18:30:00" "-rw-r--r--")
  = "/Download" ++ "/" ++ "image.jpg".
Proof.
  apply (getFileSystem_lists_children "device-001" (Some "/Download")
           (mkFile "image.jpg" "/Download/image.jpg" file 1536000
              "2024-01-21 18:30:00" "-rw-r--r--")).
  right. left. reflexivity.
Defined.



Lemma deliveries_reach_open_sockets_witness :
  "a1" ∈ sockets Sample.two_admins_state.
Proof.
  apply (deliveries_reach_open_sockets Sample.hs256 None Sample.env
           Sample.two_admins_state "d1" (device_register "device-001" "{}" "admin-001")
           "a1" (device_connect "device-001" "{}")).
  - exact two_admins_state_reachable.
  - apply (bool_decide_unpack _). vm_compute. exact I.
  - eexists. split; [left; reflexivity|]. split; [reflexivity|].
    apply (bool_decide_unpack _). vm_compute. exact I.
Defined.

Lemma disconnect_removes_own_registrations_witness :
  connectedDevices
    (fst (Relay.handle Sample.hs256 None Sample.env_25h Sample.mixed_state "s1"
            (disconnect "transport close")))
  = List.filter (fun e => negb (String.eqb (socketId (snd e)) "s1"))
      (connectedDevices Sample.mixed_state).
Proof.
  pose proof (disconnect_removes_own_registrations Sample.hs256 None Sample.env_25h
                Sample.mixed_state "s1" "transport close" mixed_state_reachable) as H.
  cbv zeta in H. destruct H as (Hleft & _). exact Hleft.
Defined.


Lemma register_then_disconnect_flag_witness :
  flag_off
    (simulator
       (fst (Relay.handle Sample.hs256 None Sample.env_25h
               (fst (Relay.handle Sample.hs256 None Sample.env Sample.start "d1"
                       (device_register "device-001" "{}" "admin-001")))
               "d1" (disconnect "transport close"))))
    "device-001".
Proof.
  assert (is_Some (getDeviceById (simulator Sample.start) "device-001")) as Hknown
    by (eexists; reflexivity).
  pose proof (register_then_disconnect_flag Sample.hs256 None Sample.env Sample.env_25h
                Sample.start "d1" "device-001" "{}" "admin-001" "transport close" Hknown)
    as H.
  cbv zeta in H. destruct H as (_ & _ & Hoff). exact Hoff.
Defined.

Lemma login_token_authenticates_witness :
  exists token,
    Login.body (snd (Login.POST Sample.hs256 None Sample.env Database.empty
                       (Some (Some "admin", Some "admin123"))))
    = Login.granted token "admin-001" "Login successful"
    /\ adminSessions
         (fst (Relay.handle Sample.hs256 None SampleStore.env_1h Sample.start "a1"
                 (admin_authenticate token))) !! "a1"
       = Some "admin-001"
    /\ snd (Relay.handle Sample.hs256 None SampleStore.env_1h Sample.start "a1"
              (admin_authenticate token))
       = [ emit (to_socket "a1") (admin_authenticated true (Some "admin-001") None) ].
Proof.
  apply (login_token_authenticates Sample.hs256 None Sample.env SampleStore.env_1h
           Database.empty Sample.start "a1").
  vm_compute. reflexivity.
Defined.

Lemma dashboard_handshake_leaves_no_session_witness :
  "a1" ∈ members
           (rooms (Relay.run Sample.hs256 None Sample.start
                     (map (sends Sample.env "a1") (Dashboard.handshake "admin-001"))))
           (admin_room "admin-001")
  /\ adminSessions
       (Relay.run Sample.hs256 None Sample.start
          (map (sends Sample.env "a1") (Dashboard.handshake "admin-001")))
     = adminSessions Sample.start.
Proof.
  assert (adminSessions Sample.start !! "a1" = None) as Hnone by reflexivity.
  pose proof (dashboard_handshake_leaves_no_session Sample.hs256 None Sample.env
                Sample.start "a1" "admin-001" Hnone) as H.
  cbv zeta in H. destruct H as (_ & Hroom & Hsame & _). now split.
Defined.

End MoreInstances.
